(** * Storefront: catalog query, cart upsert, order history, popular products

    A shallow embedding of the data operations of the storefront pages
    ([app/products/page.tsx], [app/products/[id]/page.tsx],
    [app/my-page/page.tsx], [app/page.tsx]) together with the properties
    the specification states about them.

    Conventions.
    - JavaScript numbers that hold integers are modelled as [Z].
    - Timestamps ([created_at]) are modelled by their epoch value, i.e. by
      what [new Date(s).getTime()] returns and what the store orders by.
    - Text is [string]; case folding and white space are the ASCII ones.
    - The remote store is a record of tables (lists of rows, in storage
      order); every remote call consumes one entry of a fault script, so a
      handler can be run against a store in which any chosen call fails. *)

From Stdlib Require Import ZArith List String Ascii Bool Lia.
From Stdlib Require Import Permutation Sorted.
Import ListNotations.

Local Open Scope string_scope.
Local Open Scope Z_scope.

(* ================================================================= *)
(** ** Stable sorting by a boolean order

    [Array.prototype.sort] is stable: elements that compare equal keep their
    relative order. The store leaves the order of ties open; its [order by]
    is modelled by the same sort, which breaks ties by storage order. *)

Section StableSort.
Context {A : Type} (leb : A -> A -> bool).

Fixpoint insert_sorted (a : A) (l : list A) : list A :=
  match l with
  | [] => [a]
  | b :: l' => if leb a b then a :: l else b :: insert_sorted a l'
  end.

Fixpoint stable_sort (l : list A) : list A :=
  match l with
  | [] => []
  | a :: l' => insert_sorted a (stable_sort l')
  end.

End StableSort.

(* ================================================================= *)
(** ** JavaScript built-ins used by the pages *)

Module JS.

(** [x || d] on a nullable array: arrays are always truthy. *)
Definition or_empty {A : Type} (data : option (list A)) : list A :=
  match data with Some l => l | None => [] end.

(** [x || d] on a nullable number: [null], [NaN] and [0] are falsy. *)
Definition or_num (x : option Z) (d : Z) : Z :=
  match x with
  | Some v => if v =? 0 then d else v
  | None => d
  end.

(** Truthiness of a nullable string: [undefined] and [""] are falsy. *)
Definition truthy_str (s : option string) : bool :=
  match s with
  | Some (String _ _) => true
  | _ => false
  end.

Definition is_upper (c : ascii) : bool :=
  let n := nat_of_ascii c in (Nat.leb 65 n && Nat.leb n 90)%bool.

Definition lower_char (c : ascii) : ascii :=
  if is_upper c then ascii_of_nat (nat_of_ascii c + 32) else c.

(** [String.prototype.toLowerCase]. *)
Fixpoint toLowerCase (s : string) : string :=
  match s with
  | EmptyString => EmptyString
  | String c s' => String (lower_char c) (toLowerCase s')
  end.

(** [s.startsWith(q)] *)
Fixpoint startsWith (s q : string) {struct q} : bool :=
  match q with
  | EmptyString => true
  | String c q' =>
      match s with
      | EmptyString => false
      | String d s' => Ascii.eqb c d && startsWith s' q'
      end
  end.

(** [s.includes(q)]: [q] occurs in [s] as a contiguous substring. *)
Fixpoint includes (s q : string) : bool :=
  startsWith s q
  || match s with
     | EmptyString => false
     | String _ s' => includes s' q
     end.

Definition is_space (c : ascii) : bool :=
  let n := nat_of_ascii c in
  (Nat.eqb n 32 || (Nat.leb 9 n && Nat.leb n 13))%bool.

Fixpoint trimStart (s : string) : string :=
  match s with
  | EmptyString => EmptyString
  | String c s' => if is_space c then trimStart s' else s
  end.

Fixpoint rev_string (s acc : string) : string :=
  match s with
  | EmptyString => acc
  | String c s' => rev_string s' (String c acc)
  end.

(** [String.prototype.trim]. *)
Definition trim (s : string) : string :=
  rev_string (trimStart (rev_string (trimStart s) EmptyString)) EmptyString.

(** [Array.prototype.sort(cmp)]: a stable sort; [a] is placed before [b]
    when [cmp a b <= 0]. *)
Definition sort {A : Type} (cmp : A -> A -> Z) (l : list A) : list A :=
  stable_sort (fun a b => cmp a b <=? 0) l.

End JS.

(* ================================================================= *)
(** ** Handlers: state, exceptions, [try]/[catch]/[finally] *)

(** A thrown or returned error: its [message], and whether it is an
    instance of [Error]. *)
Record error_value : Type := mkError {
  message : string;
  instanceof_Error : bool
}.

Inductive result (A : Type) : Type :=
| Returned (a : A)
| Thrown (e : error_value).
Arguments Returned {A} a.
Arguments Thrown {A} e.

Definition M (S A : Type) : Type := S -> result A * S.

Definition ret {S A : Type} (a : A) : M S A := fun s => (Returned a, s).

Definition throw {S A : Type} (e : error_value) : M S A :=
  fun s => (Thrown e, s).

Definition bind {S A B : Type} (m : M S A) (k : A -> M S B) : M S B :=
  fun s =>
    match m s with
    | (Returned a, s') => k a s'
    | (Thrown e, s') => (Thrown e, s')
    end.

Definition get {S : Type} : M S S := fun s => (Returned s, s).

Definition modify {S : Type} (f : S -> S) : M S unit :=
  fun s => (Returned tt, f s).

(** [try { body } catch (e) { handler e }]. *)
Definition try_catch {S A : Type} (body : M S A) (handler : error_value -> M S A)
  : M S A :=
  fun s =>
    match body s with
    | (Returned a, s') => (Returned a, s')
    | (Thrown e, s') => handler e s'
    end.

(** [try { body } finally { cleanup }]: [cleanup] runs on both exits and the
    outcome of [body] is kept (the cleanups of the pages never throw). *)
Definition try_finally {S A : Type} (body : M S A) (cleanup : M S unit)
  : M S A :=
  fun s =>
    match body s with
    | (r, s') =>
        match cleanup s' with
        | (Returned _, s'') => (r, s'')
        | (Thrown e, s'') => (Thrown e, s'')
        end
    end.

Declare Scope handler_scope.
Delimit Scope handler_scope with handler.
Notation "x <- m ;; k" := (bind m (fun x => k))
  (at level 61, m at next level, right associativity) : handler_scope.
Notation "m ;;; k" := (bind m (fun _ => k))
  (at level 61, right associativity) : handler_scope.
Local Open Scope handler_scope.

(** The state a handler leaves, and what it returns or throws. *)
Definition exec {S A : Type} (m : M S A) (s : S) : S := snd (m s).
Definition eval {S A : Type} (m : M S A) (s : S) : result A := fst (m s).

(* ================================================================= *)
(** ** Orders of the store *)

(** Ascending and descending orders on an integer key. *)
Definition asc {R : Type} (key : R -> Z) : R -> R -> bool :=
  fun a b => key a <=? key b.
Definition desc {R : Type} (key : R -> Z) : R -> R -> bool :=
  fun a b => key b <=? key a.

(** The order of the store on text columns: lexicographic on character
    codes. *)
Fixpoint text_leb (a b : string) : bool :=
  match a, b with
  | EmptyString, _ => true
  | String _ _, EmptyString => false
  | String x a', String y b' =>
      let m := nat_of_ascii x in
      let n := nat_of_ascii y in
      (Nat.ltb m n || (Nat.eqb m n && text_leb a' b'))%bool
  end.

Definition asc_text {R : Type} (key : R -> string) : R -> R -> bool :=
  fun a b => text_leb (key a) (key b).

(* ================================================================= *)
(** ** Data model *)

(** Modelled from the spec: the [Product] type is imported from
    [@/types/product], which is not part of the sources; the fields are the
    ones of section 3 of the specification, under the column names the pages
    use. *)
Module Product.
Record t : Type := mk {
    id : string;
    name : string;
    description : option string;
    category : option string;
    price : Z;
    stock_quantity : Z;
    is_active : bool;
    created_at : Z
  }.
End Product.

(** A row of [cart_items], with the columns [handleAddToCart] reads and
    writes. *)
Module CartItem.
Record t : Type := mk {
    id : Z;
    clerk_id : string;
    product_id : string;
    quantity : Z
  }.
End CartItem.

(** [interface Order] of [app/my-page/page.tsx]; [shipping_address] is an
    opaque payload. *)
Module Order.
Record t : Type := mk {
    id : string;
    clerk_id : string;
    total_amount : Z;
    status : string;
    shipping_address : string;
    order_note : option string;
    created_at : Z;
    updated_at : Z
  }.
End Order.

(** The signed-in user, of which the pages read [user.id] only. *)
Module User.
Record t : Type := mk { id : string }.
End User.

(* ================================================================= *)
(** ** The remote data store and its client *)

(** What happens to one remote call: it is answered, it is answered with an
    error object, or the awaited promise rejects. *)
Inductive fault : Type :=
| Fine
| Fails (e : error_value)
| Rejects (e : error_value).

Inductive request : Type :=
| Select (table : string)
| Insert (table : string)
| Update (table : string).

Module Store.
Record t : Type := mk {
  products : list Product.t;
  cart_items : list CartItem.t;
  orders : list Order.t;
  faults : list fault;
  log : list request
}.
End Store.

Definition with_cart_items (l : list CartItem.t) (w : Store.t) : Store.t :=
  Store.mk (Store.products w) l (Store.orders w) (Store.faults w) (Store.log w).

(** The next entry of the fault script; a script that ran out answers every
    call. *)
Definition next_fault (w : Store.t) : fault := hd Fine (Store.faults w).

(** The store after a call: the entry is consumed and the call is logged. *)
Definition after_call (r : request) (w : Store.t) : Store.t :=
  Store.mk (Store.products w) (Store.cart_items w) (Store.orders w)
    (tl (Store.faults w)) (Store.log w ++ [r]).

Definition contact (r : request) (w : Store.t) : fault * Store.t :=
  (next_fault w, after_call r w).

(** Every call still to come is answered. *)
Definition answered (w : Store.t) : Prop :=
  Forall (fun f => f = Fine) (Store.faults w).

(** A state that holds the remote store. *)
Class Remote (S : Type) : Type := {
  world : S -> Store.t;
  with_world : Store.t -> S -> S
}.

(** [{ data, error, count }]. *)
Module Response.
Record t (D : Type) : Type := mk {
  data : option D;
  error : option error_value;
  count : option Z
}.
Arguments mk {D} data error count.
Arguments data {D} _.
Arguments error {D} _.
Arguments count {D} _.
End Response.

(** *** Pattern matching of [ilike] *)

Definition is_percent (c : ascii) : bool := Ascii.eqb c "%".
Definition is_underscore (c : ascii) : bool := Ascii.eqb c "_".
Definition is_backslash (c : ascii) : bool := Ascii.eqb c "\".
Definition is_star (c : ascii) : bool := Ascii.eqb c "*".

(** SQL [LIKE]: [%] matches any sequence of characters, [_] any single
    character, a backslash takes the next pattern character literally. *)
Fixpoint like (p s : string) {struct p} : bool :=
  match p with
  | EmptyString => match s with EmptyString => true | String _ _ => false end
  | String c p' =>
      if is_percent c then
        (fix any (s : string) : bool :=
           like p' s
           || match s with
              | EmptyString => false
              | String _ s' => any s'
              end) s
      else if is_underscore c then
        match s with
        | EmptyString => false
        | String _ s' => like p' s'
        end
      else if is_backslash c then
        match p', s with
        | String c' p'', String d s' => Ascii.eqb c' d && like p'' s'
        | _, _ => false
        end
      else
        match s with
        | EmptyString => false
        | String d s' => Ascii.eqb c d && like p' s'
        end
  end.

(** The client of the store reads [*] in a pattern as [%]. *)
Fixpoint star_to_percent (p : string) : string :=
  match p with
  | EmptyString => EmptyString
  | String c p' => String (if is_star c then "%"%char else c) (star_to_percent p')
  end.

(** [column.ilike.pattern]: [LIKE] up to letter case. *)
Definition ilike (pattern s : string) : bool :=
  like (JS.toLowerCase (star_to_percent pattern)) (JS.toLowerCase s).

(** *** Queries *)

Record Table (R : Type) : Type := mkTable {
  table_name : string;
  read : Store.t -> list R;
  write : list R -> Store.t -> Store.t
}.
Arguments mkTable {R} table_name read write.
Arguments table_name {R} t.
Arguments read {R} t w.
Arguments write {R} t l w.

Definition products_table : Table Product.t :=
  mkTable "products" Store.products
    (fun l w => Store.mk l (Store.cart_items w) (Store.orders w) (Store.faults w) (Store.log w)).
Definition cart_items_table : Table CartItem.t :=
  mkTable "cart_items" Store.cart_items with_cart_items.
Definition orders_table : Table Order.t :=
  mkTable "orders" Store.orders
    (fun l w => Store.mk (Store.products w) (Store.cart_items w) l (Store.faults w) (Store.log w)).

(** A query under construction: the filters are conjoined, the orderings are
    applied from the most to the least significant, then the window.
    [count_exact] and [head] are the options of [select]. *)
Record Query (R : Type) : Type := mkQuery {
  table : Table R;
  count_exact : bool;
  head : bool;
  filters : list (R -> bool);
  orderings : list (R -> R -> bool);
  range_ : option (Z * Z);
  limit_ : option Z
}.
Arguments mkQuery {R} table count_exact head filters orderings range_ limit_.
Arguments table {R} q.
Arguments count_exact {R} q.
Arguments head {R} q.
Arguments filters {R} q.
Arguments orderings {R} q.
Arguments range_ {R} q.
Arguments limit_ {R} q.

(** [supabase.from(t).select("*")] *)
Definition from_select {R : Type} (t : Table R) : Query R :=
  mkQuery t false false [] [] None None.

(** [supabase.from(t).select("*", { count: "exact" })] *)
Definition from_select_count {R : Type} (t : Table R) : Query R :=
  mkQuery t true false [] [] None None.

(** [supabase.from(t).select("*", { count: "exact", head: true })] *)
Definition from_select_head {R : Type} (t : Table R) : Query R :=
  mkQuery t true true [] [] None None.

Definition add_filter {R : Type} (f : R -> bool) (q : Query R) : Query R :=
  mkQuery (table q) (count_exact q) (head q) (filters q ++ [f]) (orderings q)
    (range_ q) (limit_ q).

(** [.eq(column, value)] on a boolean, a text, a nullable text and an
    integer column; [null] equals nothing. *)
Definition eq_bool {R : Type} (col : R -> bool) (v : bool) : Query R -> Query R :=
  add_filter (fun r => Bool.eqb (col r) v).
Definition eq_text {R : Type} (col : R -> string) (v : string) : Query R -> Query R :=
  add_filter (fun r => String.eqb (col r) v).
Definition eq_text_opt {R : Type} (col : R -> option string) (v : string)
  : Query R -> Query R :=
  add_filter (fun r => match col r with Some s => String.eqb s v | None => false end).
Definition eq_int {R : Type} (col : R -> Z) (v : Z) : Query R -> Query R :=
  add_filter (fun r => col r =? v).

(** The alternatives of [.or("a.ilike.p,b.ilike.p")]. *)
Definition ilike_col {R : Type} (col : R -> string) (pattern : string) : R -> bool :=
  fun r => ilike pattern (col r).
Definition ilike_col_opt {R : Type} (col : R -> option string) (pattern : string)
  : R -> bool :=
  fun r => match col r with Some s => ilike pattern s | None => false end.
Definition or_ {R : Type} (alternatives : list (R -> bool)) : Query R -> Query R :=
  add_filter (fun r => existsb (fun f => f r) alternatives).

(** [.order(column, { ascending })] *)
Definition order {R : Type} (leb : R -> R -> bool) (q : Query R) : Query R :=
  mkQuery (table q) (count_exact q) (head q) (filters q) (orderings q ++ [leb])
    (range_ q) (limit_ q).

(** [.range(from, to)], both ends included. *)
Definition range {R : Type} (from to : Z) (q : Query R) : Query R :=
  mkQuery (table q) (count_exact q) (head q) (filters q) (orderings q)
    (Some (from, to)) (limit_ q).

(** [.limit(n)] *)
Definition limit {R : Type} (n : Z) (q : Query R) : Query R :=
  mkQuery (table q) (count_exact q) (head q) (filters q) (orderings q)
    (range_ q) (Some n).

(** *** What the store answers *)

Definition matching {R : Type} (q : Query R) (w : Store.t) : list R :=
  filter (fun r => forallb (fun f => f r) (filters q)) (read (table q) w).

Definition ordered {R : Type} (q : Query R) (l : list R) : list R :=
  fold_right (fun leb acc => stable_sort leb acc) l (orderings q).

Definition slice {R : Type} (from to : Z) (l : list R) : list R :=
  firstn (Z.to_nat (to - from + 1)) (skipn (Z.to_nat from) l).

Definition windowed {R : Type} (q : Query R) (l : list R) : list R :=
  let l1 := match range_ q with
            | Some (from, to) => slice from to l
            | None => l
            end in
  match limit_ q with
  | Some n => firstn (Z.to_nat n) l1
  | None => l1
  end.

Definition rows {R : Type} (q : Query R) (w : Store.t) : list R :=
  windowed q (ordered q (matching q w)).

(** The answer to a query the store could execute. *)
Definition answer {R : Type} (q : Query R) (w : Store.t) : Response.t (list R) :=
  Response.mk
    (if head q then None else Some (rows q w))
    None
    (if count_exact q then Some (Z.of_nat (List.length (matching q w))) else None).

(** The error of [.single()] when the rows are not exactly one. *)
Definition no_single_row : error_value :=
  mkError "JSON object requested, multiple (or no) rows returned" false.

(** [.single()]: exactly one row, or an error and no data. *)
Definition answer_single {R : Type} (q : Query R) (w : Store.t) : Response.t R :=
  match rows q w with
  | [r] => Response.mk (Some r) None None
  | _ => Response.mk None (Some no_single_row) None
  end.

(** The identifier the store gives to a new row of [cart_items]. *)
Definition fresh_id (l : list CartItem.t) : Z :=
  1 + fold_right Z.max 0 (map CartItem.id l).

Section Client.
Context {St : Type} `{Remote St}.

(** One round trip: the call is logged and meets the next scripted fault.
    A read is answered from the tables as they are when it is sent. *)
Definition call (r : request) : M St fault :=
  fun s =>
    let (f, w) := contact r (world s) in
    (Returned f, with_world w s).

(** [await query] *)
Definition await {R : Type} (q : Query R) : M St (Response.t (list R)) :=
  s <- get ;;
  f <- call (Select (table_name (table q))) ;;
  match f with
  | Fine => ret (answer q (world s))
  | Fails e => ret (Response.mk None (Some e) None)
  | Rejects e => throw e
  end.

(** [await query.single()] *)
Definition await_single {R : Type} (q : Query R) : M St (Response.t R) :=
  s <- get ;;
  f <- call (Select (table_name (table q))) ;;
  match f with
  | Fine => ret (answer_single q (world s))
  | Fails e => ret (Response.mk None (Some e) None)
  | Rejects e => throw e
  end.

(** [await supabase.from(t).insert(row)]; the store appends the row. *)
Definition await_insert {R : Type} (t : Table R) (row : list R -> R)
  : M St (Response.t unit) :=
  f <- call (Insert (table_name t)) ;;
  match f with
  | Fine =>
      modify (fun s =>
                let w := world s in
                with_world (write t (read t w ++ [row (read t w)]) w) s) ;;;
      ret (Response.mk None None None)
  | Fails e => ret (Response.mk None (Some e) None)
  | Rejects e => throw e
  end.

(** [await supabase.from(t).update(change).eq(...)]: the rows the filters of
    [q] select are changed in place. *)
Definition await_update {R : Type} (q : Query R) (change : R -> R)
  : M St (Response.t unit) :=
  f <- call (Update (table_name (table q))) ;;
  match f with
  | Fine =>
      modify (fun s =>
                let w := world s in
                let t := table q in
                with_world
                  (write t
                     (map (fun r => if forallb (fun f => f r) (filters q)
                                    then change r else r)
                        (read t w)) w) s) ;;;
      ret (Response.mk None None None)
  | Fails e => ret (Response.mk None (Some e) None)
  | Rejects e => throw e
  end.

End Client.

(** [Math.ceil(a / b)] for a positive divisor. *)
Definition ceil_div (a b : Z) : Z := - ((- a) / b).

(* ================================================================= *)
(** ** The catalog page, paginated by the store
    ([app/products/page.tsx], [ProductsPageContent]) *)

Module Catalog.

Definition ITEMS_PER_PAGE : Z := 12.

(** The state of the page that [fetchProducts] writes, and the store. *)
Record Page : Type := mkPage {
  products : list Product.t;
  loading : bool;
  error : option string;
  totalCount : Z;
  remote : Store.t
}.

#[export] Instance Page_Remote : Remote Page := {|
  world := remote;
  with_world := fun w s =>
    mkPage (products s) (loading s) (error s) (totalCount s) w
|}.

Definition setProducts (l : list Product.t) : M Page unit :=
  modify (fun s => mkPage l (loading s) (error s) (totalCount s) (remote s)).
Definition setLoading (b : bool) : M Page unit :=
  modify (fun s => mkPage (products s) b (error s) (totalCount s) (remote s)).
Definition setError (e : option string) : M Page unit :=
  modify (fun s => mkPage (products s) (loading s) e (totalCount s) (remote s)).
Definition setTotalCount (n : Z) : M Page unit :=
  modify (fun s => mkPage (products s) (loading s) (error s) n (remote s)).

Definition totalPages (totalCount : Z) : Z := ceil_div totalCount ITEMS_PER_PAGE.

(** The window of [currentPage] for a page size. *)
Definition page_from (pageSize currentPage : Z) : Z := (currentPage - 1) * pageSize.
Definition page_to (pageSize currentPage : Z) : Z :=
  page_from pageSize currentPage + pageSize - 1.

(** The query [fetchProducts] builds from the filters and the sort key,
    before the page window is set. *)
Definition base_query (selectedCategory searchQuery sortBy : string)
  : Query Product.t :=
  let query := eq_bool Product.is_active true (from_select_count products_table) in
  let query :=
    if negb (String.eqb selectedCategory "all")
    then eq_text_opt Product.category selectedCategory query
    else query in
  let query :=
    if negb (String.eqb (JS.trim searchQuery) "")
    then or_ [ilike_col Product.name ("%" ++ searchQuery ++ "%");
              ilike_col_opt Product.description ("%" ++ searchQuery ++ "%")]
           query
    else query in
  if String.eqb sortBy "name_asc"
  then order (asc_text Product.name) query
  else order (desc Product.created_at) query.

(** The query with the window of [currentPage]. *)
Definition catalog_query (selectedCategory searchQuery sortBy : string)
    (currentPage : Z) : Query Product.t :=
  let query := base_query selectedCategory searchQuery sortBy in
  let from := page_from ITEMS_PER_PAGE currentPage in
  let to := page_to ITEMS_PER_PAGE currentPage in
  range from to query.

(** [supabaseError.message || (err instanceof Error ? err.message : text)] *)
Definition error_text (err : error_value) : string :=
  if negb (String.eqb (message err) "") then message err
  else if instanceof_Error err then message err
  else "상품을 가져오는 중 오류가 발생했습니다.".

Definition fetchProducts (selectedCategory searchQuery sortBy : string)
    (currentPage : Z) : M Page unit :=
  try_finally
    (try_catch
       (setLoading true ;;;
        setError None ;;;
        r <- await (catalog_query selectedCategory searchQuery sortBy currentPage) ;;
        match Response.error r with
        | Some queryError => throw queryError
        | None =>
            setProducts (JS.or_empty (Response.data r)) ;;;
            setTotalCount (JS.or_num (Response.count r) 0)
        end)
       (fun err => setError (Some (error_text err))))
    (setLoading false).

End Catalog.

(* ================================================================= *)
(** ** The catalog page, filtered and sorted in the browser
    ([app/products/page.tsx], [ProductsPage]) *)

Module CatalogLocal.

Record Page : Type := mkPage {
  products : list Product.t;
  filteredProducts : list Product.t;
  loading : bool;
  error : option string;
  remote : Store.t
}.

#[export] Instance Page_Remote : Remote Page := {|
  world := remote;
  with_world := fun w s =>
    mkPage (products s) (filteredProducts s) (loading s) (error s) w
|}.

Definition setProducts (l : list Product.t) : M Page unit :=
  modify (fun s => mkPage l (filteredProducts s) (loading s) (error s) (remote s)).
Definition setFilteredProducts (l : list Product.t) : M Page unit :=
  modify (fun s => mkPage (products s) l (loading s) (error s) (remote s)).
Definition setLoading (b : bool) : M Page unit :=
  modify (fun s => mkPage (products s) (filteredProducts s) b (error s) (remote s)).
Definition setError (e : option string) : M Page unit :=
  modify (fun s => mkPage (products s) (filteredProducts s) (loading s) e (remote s)).

Definition products_query : Query Product.t :=
  order (desc Product.created_at)
    (eq_bool Product.is_active true (from_select products_table)).

Definition fetchProducts : M Page unit :=
  try_finally
    (try_catch
       (setLoading true ;;;
        setError None ;;;
        r <- await products_query ;;
        match Response.error r with
        | Some queryError => throw queryError
        | None =>
            setProducts (JS.or_empty (Response.data r)) ;;;
            setFilteredProducts (JS.or_empty (Response.data r))
        end)
       (fun err => setError (Some (Catalog.error_text err))))
    (setLoading false).

(** The category filter of the effect. *)
Definition by_category (selectedCategory : string) (l : list Product.t)
  : list Product.t :=
  if negb (String.eqb selectedCategory "all")
  then filter (fun p => match Product.category p with
                        | Some c => String.eqb c selectedCategory
                        | None => false
                        end) l
  else l.

(** The predicate of the search filter, [query] being the lower-cased text. *)
Definition text_match (query : string) (p : Product.t) : bool :=
  JS.includes (JS.toLowerCase (Product.name p)) query
  || match Product.description p with
     | Some d =>
         negb (String.eqb d "") && JS.includes (JS.toLowerCase d) query
     | None => false
     end.

Definition by_text (searchQuery : string) (l : list Product.t) : list Product.t :=
  if negb (String.eqb (JS.trim searchQuery) "")
  then filter (text_match (JS.toLowerCase searchQuery)) l
  else l.

(** The comparator given to [filtered.sort]. *)
Definition compare (sortBy : string) (a b : Product.t) : Z :=
  if String.eqb sortBy "price_asc" then Product.price a - Product.price b
  else if String.eqb sortBy "price_desc" then Product.price b - Product.price a
  else Product.created_at b - Product.created_at a.

(** The body of the filtering and sorting effect. *)
Definition filter_and_sort (products : list Product.t)
    (selectedCategory searchQuery sortBy : string) : list Product.t :=
  let filtered := products in
  let filtered := by_category selectedCategory filtered in
  let filtered := by_text searchQuery filtered in
  JS.sort (compare sortBy) filtered.

Definition refilter (selectedCategory searchQuery sortBy : string) : M Page unit :=
  s <- get ;;
  setFilteredProducts
    (filter_and_sort (products s) selectedCategory searchQuery sortBy).

End CatalogLocal.

(* ================================================================= *)
(** ** The product page ([app/products/[id]/page.tsx]) *)

Module ProductDetail.

Record Page : Type := mkPage {
  product : option Product.t;
  loading : bool;
  error : option string;
  quantity : Z;
  addingToCart : bool;
  showDialog : bool;
  cartItemCount : Z;
  alerts : list string;
  remote : Store.t
}.

(** The page as it is mounted. *)
Definition initial (w : Store.t) : Page :=
  mkPage None true None 1 false false 0 [] w.

#[export] Instance Page_Remote : Remote Page := {|
  world := remote;
  with_world := fun w s =>
    mkPage (product s) (loading s) (error s) (quantity s) (addingToCart s)
      (showDialog s) (cartItemCount s) (alerts s) w
|}.

Definition setProduct (p : option Product.t) : M Page unit :=
  modify (fun s =>
    mkPage p (loading s) (error s) (quantity s) (addingToCart s)
      (showDialog s) (cartItemCount s) (alerts s) (remote s)).
Definition setLoading (b : bool) : M Page unit :=
  modify (fun s =>
    mkPage (product s) b (error s) (quantity s) (addingToCart s)
      (showDialog s) (cartItemCount s) (alerts s) (remote s)).
Definition setError (e : option string) : M Page unit :=
  modify (fun s =>
    mkPage (product s) (loading s) e (quantity s) (addingToCart s)
      (showDialog s) (cartItemCount s) (alerts s) (remote s)).
Definition setQuantity (q : Z) : M Page unit :=
  modify (fun s =>
    mkPage (product s) (loading s) (error s) q (addingToCart s)
      (showDialog s) (cartItemCount s) (alerts s) (remote s)).
Definition setAddingToCart (b : bool) : M Page unit :=
  modify (fun s =>
    mkPage (product s) (loading s) (error s) (quantity s) b
      (showDialog s) (cartItemCount s) (alerts s) (remote s)).
Definition setShowDialog (b : bool) : M Page unit :=
  modify (fun s =>
    mkPage (product s) (loading s) (error s) (quantity s) (addingToCart s)
      b (cartItemCount s) (alerts s) (remote s)).
Definition setCartItemCount (n : Z) : M Page unit :=
  modify (fun s =>
    mkPage (product s) (loading s) (error s) (quantity s) (addingToCart s)
      (showDialog s) n (alerts s) (remote s)).

(** [alert(text)] *)
Definition alert (text : string) : M Page unit :=
  modify (fun s =>
    mkPage (product s) (loading s) (error s) (quantity s) (addingToCart s)
      (showDialog s) (cartItemCount s) (alerts s ++ [text]) (remote s)).

Definition product_query (productId : string) : Query Product.t :=
  eq_bool Product.is_active true
    (eq_text Product.id productId (from_select products_table)).

Definition fetchProduct (productId : string) : M Page unit :=
  try_finally
    (try_catch
       (setLoading true ;;;
        setError None ;;;
        r <- await_single (product_query productId) ;;
        match Response.error r with
        | Some queryError => throw queryError
        | None =>
            match Response.data r with
            | None => throw (mkError "상품을 찾을 수 없습니다." true)
            | Some d => setProduct (Some d)
            end
        end)
       (fun err =>
          setError (Some (if instanceof_Error err then message err
                          else "상품을 가져오는 중 오류가 발생했습니다."))))
    (setLoading false).

Definition cart_count_query (u : User.t) : Query CartItem.t :=
  eq_text CartItem.clerk_id (User.id u) (from_select_head cart_items_table).

Definition fetchCartCount (user : option User.t) : M Page unit :=
  match user with
  | None => ret tt
  | Some u =>
      try_catch
        (r <- await (cart_count_query u) ;;
         match Response.error r with
         | Some e => throw e
         | None => setCartItemCount (JS.or_num (Response.count r) 0)
         end)
        (fun _ => ret tt)
  end.

(** The look-up of the line of a user and a product. *)
Definition existing_query (u : User.t) (p : Product.t) : Query CartItem.t :=
  eq_text CartItem.product_id (Product.id p)
    (eq_text CartItem.clerk_id (User.id u) (from_select cart_items_table)).

Definition set_quantity (q : Z) (item : CartItem.t) : CartItem.t :=
  CartItem.mk (CartItem.id item) (CartItem.clerk_id item)
    (CartItem.product_id item) q.

Definition handleAddToCart (user : option User.t) : M Page unit :=
  s0 <- get ;;
  match user, product s0 with
  | Some u, Some p =>
      let quantity := quantity s0 in
      try_finally
        (try_catch
           (setAddingToCart true ;;;
            existing <- await_single (existing_query u p) ;;
            match Response.data existing with
            | Some existingItem =>
                r <- await_update
                       (eq_int CartItem.id (CartItem.id existingItem)
                          (from_select cart_items_table))
                       (set_quantity (CartItem.quantity existingItem + quantity)) ;;
                match Response.error r with
                | Some updateError => throw updateError
                | None => ret tt
                end
            | None =>
                r <- await_insert cart_items_table
                       (fun l => CartItem.mk (fresh_id l) (User.id u)
                                   (Product.id p) quantity) ;;
                match Response.error r with
                | Some insertError => throw insertError
                | None => ret tt
                end
            end ;;;
            c <- await (cart_count_query u) ;;
            setCartItemCount (JS.or_num (Response.count c) 0) ;;;
            setShowDialog true)
           (fun _ => alert "장바구니 추가 중 오류가 발생했습니다."))
        (setAddingToCart false)
  | _, _ => ret tt
  end.

Definition maxQuantity (p : Product.t) : Z := Z.min (Product.stock_quantity p) 99.

(** The controls of the purchase box. *)
Inductive control : Type :=
| MinusButton
| QuantityInput
| PlusButton
| AddToCartButton
| SignInLink.

Definition control_eqb (a b : control) : bool :=
  match a, b with
  | MinusButton, MinusButton
  | QuantityInput, QuantityInput
  | PlusButton, PlusButton
  | AddToCartButton, AddToCartButton
  | SignInLink, SignInLink => true
  | _, _ => false
  end.

(** What the page renders of the purchase box: each control with its
    [disabled] attribute. Nothing of it is rendered while loading, on an
    error, without a product, or for a product out of stock. *)
Definition view (user : option User.t) (s : Page) : list (control * bool) :=
  if loading s then []
  else if JS.truthy_str (error s) then []
  else
    match product s with
    | None => []
    | Some p =>
        if Product.stock_quantity p =? 0 then []
        else
          [ (MinusButton, quantity s <=? 1);
            (QuantityInput, false);
            (PlusButton, quantity s >=? maxQuantity p);
            match user with
            | Some _ =>
                (AddToCartButton,
                 addingToCart s || (Product.stock_quantity p =? 0))
            | None => (SignInLink, false)
            end ]
    end.

(** What the user can do; [Change v] carries [parseInt(e.target.value)],
    [None] being [NaN]. *)
Inductive event : Type :=
| ClickMinus
| Change (value : option Z)
| ClickPlus
| ClickAddToCart.

Definition target (e : event) : control :=
  match e with
  | ClickMinus => MinusButton
  | Change _ => QuantityInput
  | ClickPlus => PlusButton
  | ClickAddToCart => AddToCartButton
  end.

(** A control answers when it is rendered and not disabled. *)
Definition enabled (user : option User.t) (s : Page) (c : control) : bool :=
  existsb (fun cd => control_eqb c (fst cd) && negb (snd cd)) (view user s).

(** The handlers of the controls. *)
Definition on_event (user : option User.t) (e : event) : M Page unit :=
  s <- get ;;
  match e, product s with
  | ClickMinus, _ => setQuantity (Z.max 1 (quantity s - 1))
  | Change v, Some p =>
      let value := JS.or_num v 1 in
      setQuantity (Z.max 1 (Z.min (maxQuantity p) value))
  | ClickPlus, Some p => setQuantity (Z.min (maxQuantity p) (quantity s + 1))
  | ClickAddToCart, _ => handleAddToCart user
  | _, None => ret tt
  end.

Definition dispatch (user : option User.t) (e : event) : M Page unit :=
  s <- get ;;
  if enabled user s (target e) then on_event user e else ret tt.

Fixpoint interact (user : option User.t) (es : list event) : M Page unit :=
  match es with
  | [] => ret tt
  | e :: es' => dispatch user e ;;; interact user es'
  end.

End ProductDetail.

(* ================================================================= *)
(** ** The order history ([app/my-page/page.tsx]) *)

Module MyPage.

Record Page : Type := mkPage {
  orders : list Order.t;
  loading : bool;
  error : option string;
  remote : Store.t
}.

#[export] Instance Page_Remote : Remote Page := {|
  world := remote;
  with_world := fun w s => mkPage (orders s) (loading s) (error s) w
|}.

Definition setOrders (l : list Order.t) : M Page unit :=
  modify (fun s => mkPage l (loading s) (error s) (remote s)).
Definition setLoading (b : bool) : M Page unit :=
  modify (fun s => mkPage (orders s) b (error s) (remote s)).
Definition setError (e : option string) : M Page unit :=
  modify (fun s => mkPage (orders s) (loading s) e (remote s)).

Definition orders_query (u : User.t) (selectedStatus : string) : Query Order.t :=
  let query :=
    order (desc Order.created_at)
      (eq_text Order.clerk_id (User.id u) (from_select orders_table)) in
  if negb (String.eqb selectedStatus "all")
  then eq_text Order.status selectedStatus query
  else query.

(** [supabaseError.message || (err instanceof Error ? err.message : text)] *)
Definition error_text (err : error_value) : string :=
  if negb (String.eqb (message err) "") then message err
  else if instanceof_Error err then message err
  else "주문 내역을 가져오는 중 오류가 발생했습니다.".

Definition fetchOrders (user : option User.t) (selectedStatus : string)
  : M Page unit :=
  match user with
  | None => setLoading false
  | Some u =>
      try_finally
        (try_catch
           (setLoading true ;;;
            setError None ;;;
            r <- await (orders_query u selectedStatus) ;;
            match Response.error r with
            | Some queryError => throw queryError
            | None => setOrders (JS.or_empty (Response.data r))
            end)
           (fun err => setError (Some (error_text err))))
        (setLoading false)
  end.

End MyPage.

(* ================================================================= *)
(** ** The home page ([app/page.tsx]) *)

Module Home.

(** The server on which the page is rendered: the two environment
    variables, whether [createClient] throws on them, and the store. *)
Record Server : Type := mkServer {
  NEXT_PUBLIC_SUPABASE_URL : option string;
  NEXT_PUBLIC_SUPABASE_ANON_KEY : option string;
  createClient_throws : option error_value;
  remote : Store.t
}.

#[export] Instance Server_Remote : Remote Server := {|
  world := remote;
  with_world := fun w s =>
    mkServer (NEXT_PUBLIC_SUPABASE_URL s) (NEXT_PUBLIC_SUPABASE_ANON_KEY s)
      (createClient_throws s) w
|}.

Definition createClient : M Server unit :=
  s <- get ;;
  match createClient_throws s with
  | Some e => throw e
  | None => ret tt
  end.

Definition popular_query : Query Product.t :=
  limit 8
    (order (desc Product.created_at)
       (eq_bool Product.is_active true (from_select products_table))).

Definition getPopularProducts : M Server (list Product.t) :=
  try_catch
    (s <- get ;;
     let supabaseUrl := NEXT_PUBLIC_SUPABASE_URL s in
     let supabaseKey := NEXT_PUBLIC_SUPABASE_ANON_KEY s in
     if negb (JS.truthy_str supabaseUrl) || negb (JS.truthy_str supabaseKey)
     then ret []
     else
       createClient ;;;
       r <- await popular_query ;;
       match Response.error r with
       | Some _ => ret []
       | None => ret (JS.or_empty (Response.data r))
       end)
    (fun _ => ret []).

End Home.

(* ================================================================= *)
(** ** The badge of the cart ([components/CartBadge.tsx]) *)

Module CartBadge.

Record Page : Type := mkPage {
  itemCount : Z;
  remote : Store.t
}.

#[export] Instance Page_Remote : Remote Page := {|
  world := remote;
  with_world := fun w s => mkPage (itemCount s) w
|}.

Definition setItemCount (n : Z) : M Page unit :=
  modify (fun s => mkPage n (remote s)).

Definition fetchCartCount (user : option User.t) : M Page unit :=
  match user with
  | None => setItemCount 0
  | Some u =>
      try_catch
        (r <- await (ProductDetail.cart_count_query u) ;;
         match Response.error r with
         | Some e => throw e
         | None => setItemCount (JS.or_num (Response.count r) 0)
         end)
        (fun _ => ret tt)
  end.

(** What the badge renders: nothing, the number, or [99+]. *)
Inductive badge : Type :=
| Hidden
| Number (n : Z)
| NinetyNinePlus.

Definition render (s : Page) : badge :=
  if itemCount s =? 0 then Hidden
  else if itemCount s >? 99 then NinetyNinePlus
  else Number (itemCount s).

End CartBadge.

(* ================================================================= *)
(** ** The filters of the catalog page and its address
    ([app/products/page.tsx], [ProductsPageContent])

    The state the visitor changes: the category, the search text, the sort
    key, the page number, and the search parameters of the address. An
    effect runs after a change of one of its dependencies; the state after
    an event is the one the page settles in. *)

Module CatalogNav.

Definition validCategories : list string :=
  ["all"; "electronics"; "clothing"; "books"; "food"; "sports"; "beauty"; "home"].

(** [validCategories.includes(c)] *)
Definition is_valid (c : string) : bool :=
  existsb (String.eqb c) validCategories.

(** [URLSearchParams]: the parameters, in order. *)
Definition SearchParams : Type := list (string * string).

(** [params.get(key)]: the first value of [key], or [null]. *)
Definition params_get (key : string) (ps : SearchParams) : option string :=
  match find (fun kv => String.eqb (fst kv) key) ps with
  | Some kv => Some (snd kv)
  | None => None
  end.

(** [params.set(key, value)]: the first [key] takes [value] and the other
    ones are removed; without one, the pair is appended. *)
Fixpoint params_set (key value : string) (ps : SearchParams) : SearchParams :=
  match ps with
  | [] => [(key, value)]
  | (k, v) :: ps' =>
      if String.eqb k key
      then (key, value) :: filter (fun kv => negb (String.eqb (fst kv) key)) ps'
      else (k, v) :: params_set key value ps'
  end.

Record Nav : Type := mkNav {
  selectedCategory : string;
  searchQuery : string;
  sortBy : string;
  currentPage : Z;
  searchParams : SearchParams
}.

(** The category the page starts with, read from the address. *)
Definition initialCategory (ps : SearchParams) : string :=
  match params_get "category" ps with
  | Some categoryFromUrl =>
      if JS.truthy_str (Some categoryFromUrl) && is_valid categoryFromUrl
      then categoryFromUrl
      else "all"
  | None => "all"
  end.

(** The page as it is mounted on an address. *)
Definition mount (ps : SearchParams) : Nav :=
  mkNav (initialCategory ps) "" "newest" 1 ps.

Definition setSelectedCategory (c : string) (nav : Nav) : Nav :=
  mkNav c (searchQuery nav) (sortBy nav) (currentPage nav) (searchParams nav).
Definition setSearchQuery (q : string) (nav : Nav) : Nav :=
  mkNav (selectedCategory nav) q (sortBy nav) (currentPage nav) (searchParams nav).
Definition setSortBy (k : string) (nav : Nav) : Nav :=
  mkNav (selectedCategory nav) (searchQuery nav) k (currentPage nav) (searchParams nav).
Definition setCurrentPage (n : Z) (nav : Nav) : Nav :=
  mkNav (selectedCategory nav) (searchQuery nav) (sortBy nav) n (searchParams nav).

(** [router.replace(newUrl)]: the address takes the parameters of
    [newUrl]. *)
Definition replace (ps : SearchParams) (nav : Nav) : Nav :=
  mkNav (selectedCategory nav) (searchQuery nav) (sortBy nav) (currentPage nav) ps.

(** The effect on [searchParams]: a valid category of the address is
    selected, an address without category selects "all", any other address
    leaves the selection. *)
Definition url_effect (nav : Nav) : Nav :=
  let categoryFromUrl := params_get "category" (searchParams nav) in
  match categoryFromUrl with
  | Some c =>
      if JS.truthy_str categoryFromUrl && is_valid c
      then setSelectedCategory c nav
      else if negb (JS.truthy_str categoryFromUrl)
           then setSelectedCategory "all" nav
           else nav
  | None => setSelectedCategory "all" nav
  end.

Definition handleCategoryChange (category : string) (nav : Nav) : Nav :=
  if String.eqb (selectedCategory nav) category then nav
  else
    let nav := setSelectedCategory category nav in
    let params : SearchParams :=
      if negb (String.eqb category "all")
      then params_set "category" category []
      else [] in
    url_effect (replace params nav).

(** [handlePageChange] *)
Definition handlePageChange (page : Z) (nav : Nav) : Nav :=
  setCurrentPage page nav.

(** The effect on [selectedCategory], [searchQuery] and [sortBy]: back to
    the first page. It runs when one of the three changed. *)
Definition filters_changed (before after : Nav) : bool :=
  negb (String.eqb (selectedCategory before) (selectedCategory after)
        && String.eqb (searchQuery before) (searchQuery after)
        && String.eqb (sortBy before) (sortBy after)).

Definition settle (before after : Nav) : Nav :=
  if filters_changed before after then setCurrentPage 1 after else after.

(** What the visitor does; [Navigate] is a change of the address from
    outside the page (a link, the back button). *)
Inductive event : Type :=
| ClickCategory (category : string)
| TypeSearch (text : string)
| SelectSort (key : string)
| GoToPage (page : Z)
| Navigate (params : SearchParams).

Definition step (e : event) (nav : Nav) : Nav :=
  match e with
  | ClickCategory c => settle nav (handleCategoryChange c nav)
  | TypeSearch q => settle nav (setSearchQuery q nav)
  | SelectSort k => settle nav (setSortBy k nav)
  | GoToPage n => handlePageChange n nav
  | Navigate ps => settle nav (url_effect (replace ps nav))
  end.

Definition run (es : list event) (nav : Nav) : Nav :=
  fold_left (fun n e => step e n) es nav.

(** The window [fetchProducts] asks for in this state. *)
Definition query (nav : Nav) : Query Product.t :=
  Catalog.catalog_query (selectedCategory nav) (searchQuery nav) (sortBy nav)
    (currentPage nav).

End CatalogNav.

(* ================================================================= *)
(** * What the specification says, in its own words *)

(** The orders the history of a user shows under a status filter. *)
Definition own_order (u : User.t) (selectedStatus : string) (o : Order.t) : bool :=
  String.eqb (Order.clerk_id o) (User.id u)
  && (String.eqb selectedStatus "all" || String.eqb (Order.status o) selectedStatus).

(** Newest first. *)
Definition newest_first_orders (a b : Order.t) : Prop :=
  Order.created_at b <= Order.created_at a.

(** A product that may be browsed and ordered. *)
Definition active (p : Product.t) : Prop := Product.is_active p = true.

Definition newest_first (a b : Product.t) : Prop :=
  Product.created_at b <= Product.created_at a.

(** The product page shows no product, or an active one. *)
Definition shows_active (s : ProductDetail.Page) : Prop :=
  forall p, ProductDetail.product s = Some p -> active p.

(** The page numbers of a result of [count] rows, for a page size. *)
Definition page_numbers (pageSize count : Z) : list Z :=
  map Z.of_nat (seq 1 (Z.to_nat (ceil_div count pageSize))).

(** The cart held by the store of the product page. *)
Definition cart_of (s : ProductDetail.Page) : list CartItem.t :=
  Store.cart_items (ProductDetail.remote s).

(** A line of the cart of user [u] for product [p]. *)
Definition is_line (u : User.t) (p : Product.t) (item : CartItem.t) : bool :=
  String.eqb (CartItem.clerk_id item) (User.id u)
  && String.eqb (CartItem.product_id item) (Product.id p).

Definition lines (u : User.t) (p : Product.t) (cart : list CartItem.t)
  : list CartItem.t :=
  filter (is_line u p) cart.

Definition line_key (item : CartItem.t) : string * string :=
  (CartItem.clerk_id item, CartItem.product_id item).

(** The cart as section 3 of the specification has it: rows have distinct
    identifiers and there is at most one line for a user and a product. *)
Definition cart_wf (cart : list CartItem.t) : Prop :=
  NoDup (map CartItem.id cart) /\ NoDup (map line_key cart).

(** The selected quantity is within the bounds of the selector. *)
Definition selectable (p : Product.t) (q : Z) : Prop :=
  1 <= q <= ProductDetail.maxQuantity p.

(** [q] occurs in [s] up to letter case. *)
Definition ci_substring (q s : string) : Prop :=
  exists pre post, JS.toLowerCase s = pre ++ JS.toLowerCase q ++ post.

(** A query is blank: empty, or white space only. *)
Definition blank (q : string) : bool := String.eqb (JS.trim q) "".

(** The filters of the catalog as the specification states them: the
    category unless it is "all", the text, unless it is blank, found in the
    name or in the description. *)
Definition category_ok (c : string) (p : Product.t) : bool :=
  String.eqb c "all"
  || match Product.category p with
     | Some c' => String.eqb c' c
     | None => false
     end.

Definition text_ok (q : string) (p : Product.t) : bool :=
  blank q
  || JS.includes (JS.toLowerCase (Product.name p)) (JS.toLowerCase q)
  || match Product.description p with
     | Some d => JS.includes (JS.toLowerCase d) (JS.toLowerCase q)
     | None => false
     end.

Definition catalog_match (c q : string) (p : Product.t) : bool :=
  Product.is_active p && category_ok c p && text_ok q p.

(** Letters, digits and the space: the characters that mean only themselves
    in a pattern of the store. *)
Definition plain_char (c : ascii) : bool :=
  let n := nat_of_ascii c in
  (Nat.eqb n 32
   || (Nat.leb 48 n && Nat.leb n 57)
   || (Nat.leb 65 n && Nat.leb n 90)
   || (Nat.leb 97 n && Nat.leb n 122))%bool.

Fixpoint plain (q : string) : bool :=
  match q with
  | EmptyString => true
  | String c q' => plain_char c && plain q'
  end.

(** The orders of the catalog. *)
Definition name_ascending (a b : Product.t) : Prop :=
  text_leb (Product.name a) (Product.name b) = true.
Definition price_ascending (a b : Product.t) : Prop :=
  Product.price a <= Product.price b.
Definition price_descending (a b : Product.t) : Prop :=
  Product.price b <= Product.price a.

(** The filtered and sorted result of the paginated catalog, before the
    page window. *)
Definition catalog_result (c q sortBy : string) (w : Store.t) : list Product.t :=
  ordered (Catalog.base_query c q sortBy) (matching (Catalog.base_query c q sortBy) w).

(** The change the update of the line [item] makes to a row of the cart. *)
Definition set_line_quantity (item : CartItem.t) (q : Z) (r : CartItem.t)
  : CartItem.t :=
  if CartItem.id r =? CartItem.id item then ProductDetail.set_quantity q r else r.

(** The lines of the cart of a user, whatever the product. *)
Definition user_lines (u : User.t) (cart : list CartItem.t) : list CartItem.t :=
  filter (fun r => String.eqb (CartItem.clerk_id r) (User.id u)) cart.

(** The calls one run of [handleAddToCart] can send, in order. *)
Definition add_to_cart_calls : list (list request) :=
  [ [];
    [Select "cart_items"];
    [Select "cart_items"; Insert "cart_items"];
    [Select "cart_items"; Update "cart_items"];
    [Select "cart_items"; Insert "cart_items"; Select "cart_items"];
    [Select "cart_items"; Update "cart_items"; Select "cart_items"] ].

(** The text of the alert of [handleAddToCart]. *)
Definition add_to_cart_alert : string := "장바구니 추가 중 오류가 발생했습니다.".

(** The tables of two stores hold the same rows. *)
Definition same_tables (w w' : Store.t) : Prop :=
  Store.products w' = Store.products w
  /\ Store.cart_items w' = Store.cart_items w
  /\ Store.orders w' = Store.orders w.

(** Between two stores at most one call was sent, a read of [table]. *)
Definition at_most_one_read (table : string) (w w' : Store.t) : Prop :=
  Store.log w' = Store.log w
  \/ Store.log w' = (Store.log w ++ [Select table])%list.

(** An event the catalog page can receive from its own controls: the
    category buttons carry valid categories. *)
Definition from_controls (e : CatalogNav.event) : Prop :=
  match e with
  | CatalogNav.ClickCategory c => CatalogNav.is_valid c = true
  | _ => True
  end.

(** An event after which the address still names the category shown: as
    [from_controls], and an address from outside names a valid category or
    none. *)
Definition reloadable (e : CatalogNav.event) : Prop :=
  match e with
  | CatalogNav.ClickCategory c => CatalogNav.is_valid c = true
  | CatalogNav.Navigate ps =>
      match CatalogNav.params_get "category" ps with
      | Some c => c = "" \/ CatalogNav.is_valid c = true
      | None => True
      end
  | _ => True
  end.


(** The home page can reach the store. *)
Definition configured (s : Home.Server) : bool :=
  JS.truthy_str (Home.NEXT_PUBLIC_SUPABASE_URL s)
  && JS.truthy_str (Home.NEXT_PUBLIC_SUPABASE_ANON_KEY s).

(* ================================================================= *)
(** * Sample data *)

Module Sample.

Definition alice : User.t := User.mk "user_alice".
Definition bob : User.t := User.mk "user_bob".

Definition order1 : Order.t :=
  Order.mk "o1" "user_alice" 12000 "shipped" "Seoul" None 100 100.
Definition order2 : Order.t :=
  Order.mk "o2" "user_alice" 5000 "pending" "Seoul" None 200 200.
Definition order3 : Order.t :=
  Order.mk "o3" "user_alice" 30000 "shipped" "Seoul" (Some "door") 300 300.
Definition order4 : Order.t :=
  Order.mk "o4" "user_bob" 7000 "shipped" "Busan" None 400 400.

Definition store : Store.t :=
  Store.mk [] [] [order1; order2; order3; order4] [] [].

Definition sold_out : Product.t :=
  Product.mk "p0" "Linen shirt" None (Some "clothing") 39000 0 true 50.
Definition shirt : Product.t :=
  Product.mk "p1" "Cotton shirt" (Some "A plain shirt") (Some "clothing")
    29000 5 true 60.

(** The product page of a product out of stock, loaded, for a signed-in
    user. *)
Definition sold_out_page : ProductDetail.Page :=
  ProductDetail.mkPage (Some sold_out) false None 1 false false 0 []
    (Store.mk [sold_out; shirt] [] [] [] []).

Definition bob_line : CartItem.t := CartItem.mk 1 "user_bob" "p1" 1.
Definition alice_line : CartItem.t := CartItem.mk 2 "user_alice" "p1" 3.

(** The product page of [shirt] (5 in stock), loaded, with 2 selected; the
    cart holds a line of another user. *)
Definition shirt_page : ProductDetail.Page :=
  ProductDetail.mkPage (Some shirt) false None 2 false false 0 []
    (Store.mk [sold_out; shirt] [bob_line] [] [] []).

(** The same page with 3 selected, when the user already has a line of 3. *)
Definition shirt_again : ProductDetail.Page :=
  ProductDetail.mkPage (Some shirt) false None 3 false false 1 []
    (Store.mk [sold_out; shirt] [bob_line; alice_line] [] [] []).

(** The same, with 1 selected, when the look-up of the line meets a
    network error. *)
Definition shirt_offline : ProductDetail.Page :=
  ProductDetail.mkPage (Some shirt) false None 1 false false 1 []
    (Store.mk [sold_out; shirt] [bob_line; alice_line] []
       [Fails (mkError "Failed to fetch" false)] []).

(** The same, when the count of the lines after the write meets one. *)
Definition shirt_count_offline : ProductDetail.Page :=
  ProductDetail.mkPage (Some shirt) false None 1 false false 1 []
    (Store.mk [sold_out; shirt] [bob_line; alice_line] []
       [Fine; Fine; Fails (mkError "Failed to fetch" false)] []).

Definition retired : Product.t :=
  Product.mk "p2" "Wool scarf" None (Some "clothing") 15000 3 false 70.
Definition novel : Product.t :=
  Product.mk "p3" "A Novel" (Some "Paperback, 300 pages") (Some "books")
    12000 20 true 40.

(** A catalog of four products, one of them not active. *)
Definition catalog_store : Store.t :=
  Store.mk [sold_out; shirt; retired; novel] [] [] [] [].

Definition history : MyPage.Page := MyPage.mkPage [] true None store.

End Sample.

(* ================================================================= *)
(** * Tactics *)

(** Unfolds the combinators of a handler, so that it runs on a state. *)
Ltac unfold_monad :=
  unfold exec, eval, try_finally, try_catch, bind, ret, throw, get, modify,
    await, await_single, await_insert, await_update, call, contact in *.

Ltac run_handler := unfold_monad; cbn in *.

(** Unfolds [handleAddToCart] and the state setters it calls. *)
Ltac unfold_detail :=
  unfold ProductDetail.handleAddToCart, ProductDetail.setAddingToCart,
    ProductDetail.setCartItemCount, ProductDetail.setShowDialog,
    ProductDetail.setQuantity, ProductDetail.alert in *.

(** Runs [handleAddToCart] for user [u] on the page [s] of product [p]:
    one goal for each answer of the look-up and each fault script. *)
Ltac add_to_cart_cases u p s Hp :=
  unfold_detail; unfold_monad;
  cbn -[rows]; try rewrite Hp; unfold answer_single;
  destruct (rows (ProductDetail.existing_query u p) (ProductDetail.remote s))
    as [|?item [|?item' ?l]];
  unfold next_fault, after_call, with_cart_items; cbn -[rows];
  destruct (Store.faults (ProductDetail.remote s))
    as [|[|?e1|?e1] [|[|?e2|?e2] [|[|?e3|?e3] ?fs]]];
  cbn -[rows].

(* ================================================================= *)
(** * Properties *)

(** ** Stable sorting *)

Section StableSortFacts.
Context {A : Type} (leb : A -> A -> bool).

Lemma insert_sorted_perm (a : A) (l : list A) :
  Permutation (insert_sorted leb a l) (a :: l).
Proof.
  induction l as [|b l IH]; simpl.
  - apply Permutation_refl.
  - destruct (leb a b).
    + apply Permutation_refl.
    + eapply Permutation_trans.
      * apply perm_skip, IH.
      * apply perm_swap.
Qed.

Lemma stable_sort_perm (l : list A) : Permutation (stable_sort leb l) l.
Proof.
  induction l as [|a l IH]; simpl.
  - apply perm_nil.
  - eapply Permutation_trans.
    + apply insert_sorted_perm.
    + apply perm_skip, IH.
Qed.

Lemma stable_sort_In (x : A) (l : list A) :
  In x (stable_sort leb l) <-> In x l.
Proof.
  split; apply Permutation_in.
  - apply stable_sort_perm.
  - apply Permutation_sym, stable_sort_perm.
Qed.

Lemma stable_sort_length (l : list A) :
  List.length (stable_sort leb l) = List.length l.
Proof. apply Permutation_length, stable_sort_perm. Qed.

Hypothesis leb_total : forall a b, leb a b = true \/ leb b a = true.
Hypothesis leb_trans :
  forall a b c, leb a b = true -> leb b c = true -> leb a c = true.

Lemma insert_sorted_sorted (a : A) (l : list A) :
  StronglySorted (fun x y => leb x y = true) l ->
  StronglySorted (fun x y => leb x y = true) (insert_sorted leb a l).
Proof.
  induction 1 as [|b l Hs IH Hb]; simpl.
  - repeat constructor.
  - destruct (leb a b) eqn:Hab.
    + constructor.
      * constructor; assumption.
      * constructor; [exact Hab|].
        eapply Forall_impl; [|exact Hb].
        intros c Hbc. exact (leb_trans _ _ _ Hab Hbc).
    + constructor; [exact IH|].
      assert (Hba : leb b a = true).
      { destruct (leb_total a b) as [H|H]; [congruence|exact H]. }
      eapply Permutation_Forall.
      * apply Permutation_sym, insert_sorted_perm.
      * constructor; assumption.
Qed.

Lemma stable_sort_sorted (l : list A) :
  StronglySorted (fun x y => leb x y = true) (stable_sort leb l).
Proof.
  induction l as [|a l IH]; simpl.
  - constructor.
  - apply insert_sorted_sorted, IH.
Qed.

End StableSortFacts.

Lemma StronglySorted_weaken {A : Type} (R R' : A -> A -> Prop) (l : list A) :
  (forall a b, R a b -> R' a b) -> StronglySorted R l -> StronglySorted R' l.
Proof.
  intros HR. induction 1 as [|a l Hs IH Ha]; constructor.
  - exact IH.
  - eapply Forall_impl; [|exact Ha]. intros b. apply HR.
Qed.

(** ** Windows of a list *)

Lemma In_firstn {A : Type} (x : A) (n : nat) (l : list A) :
  In x (firstn n l) -> In x l.
Proof.
  intros Hx. rewrite <- (firstn_skipn n l). apply in_or_app. left; exact Hx.
Qed.

Lemma In_skipn {A : Type} (x : A) (n : nat) (l : list A) :
  In x (skipn n l) -> In x l.
Proof.
  intros Hx. rewrite <- (firstn_skipn n l). apply in_or_app. right; exact Hx.
Qed.

Lemma StronglySorted_skipn {A : Type} (R : A -> A -> Prop) (n : nat) (l : list A) :
  StronglySorted R l -> StronglySorted R (skipn n l).
Proof.
  revert l; induction n as [|n IH]; intros l Hl; simpl.
  - exact Hl.
  - destruct l as [|a l]; [constructor|].
    apply IH. inversion Hl; assumption.
Qed.

Lemma StronglySorted_firstn {A : Type} (R : A -> A -> Prop) (n : nat) (l : list A) :
  StronglySorted R l -> StronglySorted R (firstn n l).
Proof.
  revert l; induction n as [|n IH]; intros l Hl; simpl.
  - constructor.
  - destruct l as [|a l]; [constructor|].
    inversion Hl as [|? ? Hs Ha]; subst.
    constructor.
    + apply IH, Hs.
    + rewrite Forall_forall in *. intros x Hx.
      apply Ha. eapply In_firstn, Hx.
Qed.

Lemma In_slice {A : Type} (x : A) (from to : Z) (l : list A) :
  In x (slice from to l) -> In x l.
Proof. unfold slice. intros Hx. eapply In_skipn, In_firstn, Hx. Qed.

Lemma StronglySorted_slice {A : Type} (R : A -> A -> Prop) (from to : Z)
    (l : list A) :
  StronglySorted R l -> StronglySorted R (slice from to l).
Proof.
  intros Hl. unfold slice. apply StronglySorted_firstn, StronglySorted_skipn, Hl.
Qed.

(** ** The orders of the store are total and transitive *)

Lemma asc_total {R : Type} (key : R -> Z) (a b : R) :
  asc key a b = true \/ asc key b a = true.
Proof. unfold asc. destruct (Z.leb_spec (key a) (key b)); [left|right]; lia. Qed.

Lemma asc_trans {R : Type} (key : R -> Z) (a b c : R) :
  asc key a b = true -> asc key b c = true -> asc key a c = true.
Proof. unfold asc. lia. Qed.

Lemma desc_total {R : Type} (key : R -> Z) (a b : R) :
  desc key a b = true \/ desc key b a = true.
Proof. unfold desc. destruct (Z.leb_spec (key a) (key b)); [right|left]; lia. Qed.

Lemma desc_trans {R : Type} (key : R -> Z) (a b c : R) :
  desc key a b = true -> desc key b c = true -> desc key a c = true.
Proof. unfold desc. lia. Qed.

Lemma text_leb_total (a b : string) : text_leb a b = true \/ text_leb b a = true.
Proof.
  revert b; induction a as [|x a IH]; intros [|y b]; simpl; auto.
  destruct (Nat.ltb_spec (nat_of_ascii x) (nat_of_ascii y)) as [Hlt|Hge]; simpl.
  - left; reflexivity.
  - destruct (Nat.ltb_spec (nat_of_ascii y) (nat_of_ascii x)) as [Hlt'|Hge']; simpl.
    + right; reflexivity.
    + assert (Heq : nat_of_ascii x = nat_of_ascii y) by lia.
      rewrite Heq, Nat.eqb_refl; simpl. apply IH.
Qed.

Lemma text_leb_trans (a b c : string) :
  text_leb a b = true -> text_leb b c = true -> text_leb a c = true.
Proof.
  revert b c; induction a as [|x a IH]; intros [|y b] [|z c]; simpl;
    try reflexivity; try discriminate.
  intros Hab Hbc.
  apply orb_true_iff in Hab. apply orb_true_iff in Hbc. apply orb_true_iff.
  destruct Hab as [Hab|Hab]; destruct Hbc as [Hbc|Hbc].
  - left. apply Nat.ltb_lt in Hab, Hbc. apply Nat.ltb_lt. lia.
  - apply andb_true_iff in Hbc as [Hyz _]. apply Nat.eqb_eq in Hyz.
    left. rewrite <- Hyz. exact Hab.
  - apply andb_true_iff in Hab as [Hxy _]. apply Nat.eqb_eq in Hxy.
    left. rewrite Hxy. exact Hbc.
  - apply andb_true_iff in Hab as [Hxy Hab].
    apply andb_true_iff in Hbc as [Hyz Hbc].
    apply Nat.eqb_eq in Hxy, Hyz. right.
    rewrite Hxy, Hyz, Nat.eqb_refl; simpl.
    exact (IH _ _ Hab Hbc).
Qed.

(** ** What a query returns *)

Lemma matching_In {R : Type} (q : Query R) (w : Store.t) (r : R) :
  In r (matching q w) <->
  In r (read (table q) w) /\ forallb (fun f => f r) (filters q) = true.
Proof. unfold matching. apply filter_In. Qed.

Lemma ordered_perm {R : Type} (q : Query R) (l : list R) :
  Permutation (ordered q l) l.
Proof.
  unfold ordered. induction (orderings q) as [|leb os IH]; simpl.
  - apply Permutation_refl.
  - eapply Permutation_trans; [apply stable_sort_perm | exact IH].
Qed.

Lemma windowed_In {R : Type} (q : Query R) (l : list R) (r : R) :
  In r (windowed q l) -> In r l.
Proof.
  unfold windowed. intros Hr.
  assert (Hin : In r match range_ q with
                     | Some (from, to) => slice from to l
                     | None => l
                     end).
  { destruct (limit_ q); [eapply In_firstn, Hr | exact Hr]. }
  destruct (range_ q) as [[from to]|]; [eapply In_slice, Hin | exact Hin].
Qed.

Lemma rows_matching {R : Type} (q : Query R) (w : Store.t) (r : R) :
  In r (rows q w) -> In r (matching q w).
Proof.
  unfold rows. intros Hr. apply windowed_In in Hr.
  eapply Permutation_in; [apply ordered_perm | exact Hr].
Qed.

(** Every returned row is a row of the table that passes every filter. *)
Lemma rows_sound {R : Type} (q : Query R) (w : Store.t) (r : R) :
  In r (rows q w) ->
  In r (read (table q) w) /\ forall f, In f (filters q) -> f r = true.
Proof.
  intros Hr. apply rows_matching, matching_In in Hr as [Hin Hall].
  split; [exact Hin|].
  rewrite forallb_forall in Hall. exact Hall.
Qed.

(** ** Calls that are answered *)

Lemma answered_next (w : Store.t) : answered w -> next_fault w = Fine.
Proof.
  unfold answered, next_fault. destruct (Store.faults w) as [|f fs]; simpl.
  - reflexivity.
  - intros Hf. inversion Hf; assumption.
Qed.

Lemma answered_after (r : request) (w : Store.t) :
  answered w -> answered (after_call r w).
Proof.
  unfold answered, after_call; simpl.
  destruct (Store.faults w) as [|f fs]; simpl; intros Hf.
  - constructor.
  - inversion Hf; assumption.
Qed.


(** ** The order history *)

Lemma orders_query_matching (u : User.t) (selectedStatus : string) (w : Store.t) :
  matching (MyPage.orders_query u selectedStatus) w
  = filter (own_order u selectedStatus) (Store.orders w).
Proof.
  unfold matching, MyPage.orders_query, own_order.
  destruct (String.eqb selectedStatus "all") eqn:Hall; cbn.
  - apply filter_ext. intros o. rewrite !andb_true_r. reflexivity.
  - apply filter_ext. intros o. rewrite !andb_true_r. reflexivity.
Qed.

Lemma orders_query_rows (u : User.t) (selectedStatus : string) (w : Store.t) :
  rows (MyPage.orders_query u selectedStatus) w
  = stable_sort (desc Order.created_at)
      (filter (own_order u selectedStatus) (Store.orders w)).
Proof.
  unfold rows. rewrite orders_query_matching.
  unfold MyPage.orders_query.
  destruct (String.eqb selectedStatus "all"); reflexivity.
Qed.

Lemma fetchOrders_answered (u : User.t) (selectedStatus : string) (s : MyPage.Page) :
  next_fault (MyPage.remote s) = Fine ->
  exec (MyPage.fetchOrders (Some u) selectedStatus) s
  = MyPage.mkPage
      (rows (MyPage.orders_query u selectedStatus) (MyPage.remote s))
      false None
      (after_call (Select "orders") (MyPage.remote s)).
Proof.
  intros Hf. unfold MyPage.fetchOrders, MyPage.setLoading, MyPage.setError,
    MyPage.setOrders.
  run_handler. rewrite Hf. cbn.
  unfold MyPage.orders_query.
  destruct (String.eqb selectedStatus "all"); reflexivity.
Qed.

(** C7. Order history read: when the store answers, the list the page holds
    after [fetchOrders] is exactly the orders of the signed-in user,
    restricted to the selected status unless it is "all", newest first. *)
Theorem order_history_read (u : User.t) (selectedStatus : string) (s : MyPage.Page) :
  next_fault (MyPage.remote s) = Fine ->
  let shown := MyPage.orders (exec (MyPage.fetchOrders (Some u) selectedStatus) s) in
  let own := filter (own_order u selectedStatus) (Store.orders (MyPage.remote s)) in
  shown = stable_sort (desc Order.created_at) own
  /\ Permutation shown own
  /\ (forall o, In o shown <->
                In o (Store.orders (MyPage.remote s))
                /\ Order.clerk_id o = User.id u
                /\ (selectedStatus <> "all" -> Order.status o = selectedStatus))
  /\ StronglySorted newest_first_orders shown.
Proof.
  intros Hf shown own.
  assert (Hshown : shown = stable_sort (desc Order.created_at) own).
  { unfold shown. rewrite (fetchOrders_answered u selectedStatus s Hf). cbn.
    apply orders_query_rows. }
  split; [exact Hshown|].
  split; [rewrite Hshown; apply stable_sort_perm|].
  split.
  - intros o. rewrite Hshown, stable_sort_In. unfold own.
    rewrite filter_In. unfold own_order.
    rewrite andb_true_iff, orb_true_iff, !String.eqb_eq.
    split.
    + intros (Hin & Hu & Hst). repeat split; try assumption.
      intros Hne. destruct Hst as [Hst|Hst]; [contradiction|exact Hst].
    + intros (Hin & Hu & Hst). repeat split; try assumption.
      destruct (String.eqb_spec selectedStatus "all") as [Heq|Hne];
        [left; exact Heq | right; exact (Hst Hne)].
  - rewrite Hshown.
    apply StronglySorted_weaken
      with (R := fun a b => desc Order.created_at a b = true).
    + intros a b Hab. unfold desc in Hab. unfold newest_first_orders. lia.
    + apply stable_sort_sorted; [apply desc_total | apply desc_trans].
Qed.

Lemma order_history_read_witness :
  next_fault (MyPage.remote Sample.history) = Fine
  /\ MyPage.orders (exec (MyPage.fetchOrders (Some Sample.alice) "shipped")
                      Sample.history)
     = stable_sort (desc Order.created_at)
         (filter (own_order Sample.alice "shipped")
            (Store.orders (MyPage.remote Sample.history)))
  /\ MyPage.orders (exec (MyPage.fetchOrders (Some Sample.alice) "shipped")
                      Sample.history)
     = [Sample.order3; Sample.order1].
Proof.
  split; [reflexivity|].
  split.
  - exact (proj1 (order_history_read Sample.alice "shipped" Sample.history eq_refl)).
  - reflexivity.
Defined.

(** ** The popular products of the home page *)

Lemma filter_is_active (l : list Product.t) :
  filter (fun r => forallb (fun f => f r) [fun r => Bool.eqb (Product.is_active r) true]) l
  = filter Product.is_active l.
Proof.
  apply filter_ext. intros p. cbn. destruct (Product.is_active p); reflexivity.
Qed.

Lemma popular_rows (w : Store.t) :
  rows Home.popular_query w
  = firstn 8 (stable_sort (desc Product.created_at)
                (filter Product.is_active (Store.products w))).
Proof.
  unfold rows, matching, Home.popular_query; cbn.
  rewrite filter_is_active. reflexivity.
Qed.

Lemma getPopularProducts_eval (s : Home.Server) :
  eval Home.getPopularProducts s
  = Returned
      (if configured s
       then match Home.createClient_throws s with
            | Some _ => []
            | None =>
                match next_fault (Home.remote s) with
                | Fine => rows Home.popular_query (Home.remote s)
                | _ => []
                end
            end
       else []).
Proof.
  unfold Home.getPopularProducts, Home.createClient, configured.
  run_handler.
  destruct (JS.truthy_str (Home.NEXT_PUBLIC_SUPABASE_URL s)); cbn;
    [|reflexivity].
  destruct (JS.truthy_str (Home.NEXT_PUBLIC_SUPABASE_ANON_KEY s)); cbn;
    [|reflexivity].
  destruct (Home.createClient_throws s); cbn; [reflexivity|].
  destruct (next_fault (Home.remote s)); reflexivity.
Qed.

Lemma popular_rows_active (w : Store.t) : Forall active (rows Home.popular_query w).
Proof.
  apply Forall_forall. intros p Hp. rewrite popular_rows in Hp.
  apply In_firstn in Hp. apply stable_sort_In in Hp.
  apply filter_In in Hp. exact (proj2 Hp).
Qed.

Lemma popular_rows_sorted (w : Store.t) :
  StronglySorted newest_first (rows Home.popular_query w).
Proof.
  rewrite popular_rows. apply StronglySorted_firstn.
  apply StronglySorted_weaken
    with (R := fun a b => desc Product.created_at a b = true).
  - intros a b Hab. unfold desc in Hab. unfold newest_first. lia.
  - apply stable_sort_sorted; [apply desc_total | apply desc_trans].
Qed.

(** C10. The fetch of the popular products always returns a list and never
    throws: the empty list when the URL or the key is missing, when
    [createClient] throws, when the query is answered with an error or
    rejects; otherwise the at most 8 newest active products, newest first. *)
Theorem getPopularProducts_total (s : Home.Server) :
  exists l : list Product.t,
    eval Home.getPopularProducts s = Returned l
    /\ (configured s = false -> l = [])
    /\ (Home.createClient_throws s <> None -> l = [])
    /\ (next_fault (Home.remote s) <> Fine -> l = [])
    /\ (configured s = true ->
        Home.createClient_throws s = None ->
        next_fault (Home.remote s) = Fine ->
        l = firstn 8 (stable_sort (desc Product.created_at)
                        (filter Product.is_active
                           (Store.products (Home.remote s)))))
    /\ (List.length l <= 8)%nat
    /\ Forall active l
    /\ StronglySorted newest_first l.
Proof.
  eexists. split; [apply getPopularProducts_eval|].
  destruct (configured s) eqn:Hc.
  2:{ repeat split; try reflexivity; try discriminate; cbn;
        try lia; constructor. }
  destruct (Home.createClient_throws s) as [e|] eqn:Ht.
  { repeat split; try reflexivity; try discriminate; cbn;
      try lia; constructor. }
  destruct (next_fault (Home.remote s)) eqn:Hf.
  - split; [discriminate|]. split; [congruence|]. split; [congruence|].
    split; [intros _ _ _; apply popular_rows|].
    split; [rewrite popular_rows; apply firstn_le_length|].
    split; [apply popular_rows_active | apply popular_rows_sorted].
  - repeat split; try reflexivity; try discriminate; cbn; try lia; constructor.
  - repeat split; try reflexivity; try discriminate; cbn; try lia; constructor.
Qed.

(** ** Only active products are read *)

Lemma base_query_active_filter (selectedCategory searchQuery sortBy : string) :
  exists fs,
    filters (Catalog.base_query selectedCategory searchQuery sortBy)
    = (fun r => Bool.eqb (Product.is_active r) true) :: fs
    /\ table (Catalog.base_query selectedCategory searchQuery sortBy)
       = products_table
    /\ head (Catalog.base_query selectedCategory searchQuery sortBy) = false
    /\ count_exact (Catalog.base_query selectedCategory searchQuery sortBy) = true.
Proof.
  unfold Catalog.base_query.
  destruct (negb (String.eqb selectedCategory "all"));
    destruct (negb (String.eqb (JS.trim searchQuery) ""));
    destruct (String.eqb sortBy "name_asc"); cbn; eexists; repeat split.
Qed.

Lemma catalog_rows_active (selectedCategory searchQuery sortBy : string)
    (currentPage : Z) (w : Store.t) :
  Forall active
    (rows (Catalog.catalog_query selectedCategory searchQuery sortBy currentPage) w).
Proof.
  apply Forall_forall. intros p Hp. apply rows_sound in Hp as [_ Hall].
  destruct (base_query_active_filter selectedCategory searchQuery sortBy)
    as (fs & Hfs & _).
  unfold Catalog.catalog_query in Hall; cbn in Hall. rewrite Hfs in Hall.
  specialize (Hall _ (or_introl eq_refl)). cbn in Hall.
  unfold active. destruct (Product.is_active p); [reflexivity|discriminate].
Qed.

Lemma local_rows_active (w : Store.t) :
  Forall active (rows CatalogLocal.products_query w).
Proof.
  apply Forall_forall. intros p Hp. apply rows_sound in Hp as [_ Hall].
  specialize (Hall _ (or_introl eq_refl)). cbn in Hall.
  unfold active. destruct (Product.is_active p); [reflexivity|discriminate].
Qed.

Lemma answer_single_In {R : Type} (q : Query R) (w : Store.t) (r : R) :
  Response.data (answer_single q w) = Some r -> rows q w = [r].
Proof.
  unfold answer_single.
  destruct (rows q w) as [|a [|b l]]; cbn; try discriminate.
  intros H. injection H as ->. reflexivity.
Qed.

Lemma product_single_active (productId : string) (w : Store.t) (p : Product.t) :
  Response.data (answer_single (ProductDetail.product_query productId) w) = Some p ->
  active p /\ Product.id p = productId /\ In p (Store.products w).
Proof.
  intros H. apply answer_single_In in H.
  assert (Hp : In p (rows (ProductDetail.product_query productId) w)).
  { rewrite H. left; reflexivity. }
  apply rows_sound in Hp as [Hin Hall].
  pose proof (Hall _ (or_introl eq_refl)) as Hid.
  pose proof (Hall _ (or_intror (or_introl eq_refl))) as Hact.
  cbn in Hid, Hact. apply String.eqb_eq in Hid.
  split; [|split; [exact Hid | exact Hin]].
  unfold active. destruct (Product.is_active p); [reflexivity|discriminate].
Qed.

Lemma catalog_fetch_products (selectedCategory searchQuery sortBy : string)
    (currentPage : Z) (s : Catalog.Page) :
  Catalog.products
    (exec (Catalog.fetchProducts selectedCategory searchQuery sortBy currentPage) s)
  = match next_fault (Catalog.remote s) with
    | Fine =>
        rows (Catalog.catalog_query selectedCategory searchQuery sortBy currentPage)
          (Catalog.remote s)
    | _ => Catalog.products s
    end.
Proof.
  unfold Catalog.fetchProducts, Catalog.setLoading, Catalog.setError,
    Catalog.setProducts, Catalog.setTotalCount.
  destruct (base_query_active_filter selectedCategory searchQuery sortBy)
    as (fs & _ & _ & Hhead & _).
  run_handler.
  destruct (next_fault (Catalog.remote s)); cbn; try reflexivity.
  unfold answer; cbn. rewrite Hhead. reflexivity.
Qed.

Lemma local_fetch_products (s : CatalogLocal.Page) :
  let s' := exec CatalogLocal.fetchProducts s in
  match next_fault (CatalogLocal.remote s) with
  | Fine =>
      CatalogLocal.products s' = rows CatalogLocal.products_query (CatalogLocal.remote s)
      /\ CatalogLocal.filteredProducts s'
         = rows CatalogLocal.products_query (CatalogLocal.remote s)
  | _ =>
      CatalogLocal.products s' = CatalogLocal.products s
      /\ CatalogLocal.filteredProducts s' = CatalogLocal.filteredProducts s
  end.
Proof.
  unfold CatalogLocal.fetchProducts, CatalogLocal.setLoading,
    CatalogLocal.setError, CatalogLocal.setProducts,
    CatalogLocal.setFilteredProducts.
  run_handler.
  destruct (next_fault (CatalogLocal.remote s)); cbn; split; reflexivity.
Qed.

Lemma fetchProduct_product (productId : string) (s : ProductDetail.Page) :
  ProductDetail.product (exec (ProductDetail.fetchProduct productId) s)
  = match next_fault (ProductDetail.remote s) with
    | Fine =>
        match Response.data
                (answer_single (ProductDetail.product_query productId)
                   (ProductDetail.remote s)) with
        | Some d => Some d
        | None => ProductDetail.product s
        end
    | _ => ProductDetail.product s
    end.
Proof.
  unfold ProductDetail.fetchProduct, ProductDetail.setLoading,
    ProductDetail.setError, ProductDetail.setProduct.
  run_handler.
  destruct (next_fault (ProductDetail.remote s)); cbn; try reflexivity.
  unfold answer_single.
  destruct (rows (ProductDetail.product_query productId) (ProductDetail.remote s))
    as [|a [|b l]]; reflexivity.
Qed.

Lemma filter_and_sort_In (products : list Product.t)
    (selectedCategory searchQuery sortBy : string) (p : Product.t) :
  In p (CatalogLocal.filter_and_sort products selectedCategory searchQuery sortBy) ->
  In p products.
Proof.
  unfold CatalogLocal.filter_and_sort, JS.sort. intros Hp.
  apply stable_sort_In in Hp.
  unfold CatalogLocal.by_text in Hp.
  assert (Hc : In p (CatalogLocal.by_category selectedCategory products)).
  { destruct (negb (String.eqb (JS.trim searchQuery) ""));
      [apply filter_In in Hp; exact (proj1 Hp) | exact Hp]. }
  unfold CatalogLocal.by_category in Hc.
  destruct (negb (String.eqb selectedCategory "all"));
    [apply filter_In in Hc; exact (proj1 Hc) | exact Hc].
Qed.

(** ** What the handlers of the product page leave alone *)


Lemma handleAddToCart_returns (user : option User.t) (s : ProductDetail.Page) :
  eval (ProductDetail.handleAddToCart user) s = Returned tt.
Proof.
  unfold_detail. unfold_monad.
  destruct user as [u|]; [|reflexivity].
  destruct (ProductDetail.product s) as [p|] eqn:Hp;
    [|cbn; try rewrite Hp; reflexivity].
  cbn -[rows]. try rewrite Hp. unfold answer_single.
  destruct (rows (ProductDetail.existing_query u p) (ProductDetail.remote s))
    as [|item [|item' l]];
    unfold next_fault, after_call, with_cart_items; cbn -[rows];
    destruct (Store.faults (ProductDetail.remote s))
      as [|[|e1|e1] [|[|e2|e2] [|[|e3|e3] fs]]];
    reflexivity.
Qed.

Lemma handleAddToCart_frame (user : option User.t) (s : ProductDetail.Page) :
  let s' := exec (ProductDetail.handleAddToCart user) s in
  ProductDetail.product s' = ProductDetail.product s
  /\ ProductDetail.quantity s' = ProductDetail.quantity s
  /\ ProductDetail.loading s' = ProductDetail.loading s
  /\ ProductDetail.error s' = ProductDetail.error s
  /\ Store.products (ProductDetail.remote s')
     = Store.products (ProductDetail.remote s).
Proof.
  unfold_detail. unfold_monad.
  destruct user as [u|]; [|cbn; repeat split].
  destruct (ProductDetail.product s) as [p|] eqn:Hp;
    [|cbn; rewrite Hp; cbn; repeat split; auto].
  cbn -[rows]. rewrite Hp. unfold answer_single.
  destruct (rows (ProductDetail.existing_query u p) (ProductDetail.remote s))
    as [|item [|item' l]];
    unfold next_fault, after_call, with_cart_items; cbn -[rows];
    destruct (Store.faults (ProductDetail.remote s))
      as [|[|e1|e1] [|[|e2|e2] [|[|e3|e3] fs]]];
    cbn -[rows]; repeat split; reflexivity.
Qed.

Lemma exec_dispatch (user : option User.t) (e : ProductDetail.event)
    (s : ProductDetail.Page) :
  exec (ProductDetail.dispatch user e) s
  = if ProductDetail.enabled user s (ProductDetail.target e)
    then exec (ProductDetail.on_event user e) s
    else s.
Proof.
  unfold ProductDetail.dispatch, exec, bind, get; cbn.
  destruct (ProductDetail.enabled user s (ProductDetail.target e)); reflexivity.
Qed.

Lemma on_event_returns (user : option User.t) (e : ProductDetail.event)
    (s : ProductDetail.Page) :
  eval (ProductDetail.on_event user e) s = Returned tt.
Proof.
  pose proof (handleAddToCart_returns user s) as Hadd.
  unfold ProductDetail.on_event, eval, bind, get in *; cbn.
  destruct e; destruct (ProductDetail.product s); try reflexivity; exact Hadd.
Qed.

Lemma dispatch_returns (user : option User.t) (e : ProductDetail.event)
    (s : ProductDetail.Page) :
  eval (ProductDetail.dispatch user e) s = Returned tt.
Proof.
  unfold ProductDetail.dispatch, eval, bind, get; cbn.
  destruct (ProductDetail.enabled user s (ProductDetail.target e)).
  - apply on_event_returns.
  - reflexivity.
Qed.

Lemma exec_interact_cons (user : option User.t) (e : ProductDetail.event)
    (es : list ProductDetail.event) (s : ProductDetail.Page) :
  exec (ProductDetail.interact user (e :: es)) s
  = exec (ProductDetail.interact user es) (exec (ProductDetail.dispatch user e) s).
Proof.
  pose proof (dispatch_returns user e s) as Hr.
  unfold exec, eval in *. cbn [ProductDetail.interact]. unfold bind.
  destruct (ProductDetail.dispatch user e s) as [r s']. cbn in *.
  rewrite Hr. reflexivity.
Qed.

Lemma on_event_product (user : option User.t) (e : ProductDetail.event)
    (s : ProductDetail.Page) :
  ProductDetail.product (exec (ProductDetail.on_event user e) s)
  = ProductDetail.product s.
Proof.
  destruct e.
  - reflexivity.
  - unfold ProductDetail.on_event, exec, bind, get; cbn.
    destruct (ProductDetail.product s) eqn:Hp; cbn; auto.
  - unfold ProductDetail.on_event, exec, bind, get; cbn.
    destruct (ProductDetail.product s) eqn:Hp; cbn; auto.
  - transitivity
      (ProductDetail.product (exec (ProductDetail.handleAddToCart user) s)).
    + unfold ProductDetail.on_event, exec, bind, get; cbn.
      destruct (ProductDetail.product s); reflexivity.
    + apply handleAddToCart_frame.
Qed.

Lemma interact_product (user : option User.t) (es : list ProductDetail.event)
    (s : ProductDetail.Page) :
  ProductDetail.product (exec (ProductDetail.interact user es) s)
  = ProductDetail.product s.
Proof.
  revert s; induction es as [|e es IH]; intros s.
  - reflexivity.
  - rewrite exec_interact_cons, IH, exec_dispatch.
    destruct (ProductDetail.enabled user s (ProductDetail.target e)).
    + apply on_event_product.
    + reflexivity.
Qed.

(** C8. Active-product invariant: the queries of the catalog (both flows),
    of the product page and of the home page return active products only,
    and so do the handlers that run them, whatever the store answers: the
    lists the catalog pages hold, the product the product page holds (also
    after any use of its purchase box) and the list of the home page contain
    active products only. *)
Theorem active_products_only :
  (forall selectedCategory searchQuery sortBy currentPage w,
      Forall active
        (rows (Catalog.catalog_query selectedCategory searchQuery sortBy currentPage) w))
  /\ (forall w, Forall active (rows CatalogLocal.products_query w))
  /\ (forall productId w p,
         Response.data (answer_single (ProductDetail.product_query productId) w)
         = Some p -> active p)
  /\ (forall w, Forall active (rows Home.popular_query w))
  /\ (forall selectedCategory searchQuery sortBy currentPage s,
         Forall active (Catalog.products s) ->
         Forall active
           (Catalog.products
              (exec (Catalog.fetchProducts selectedCategory searchQuery sortBy
                       currentPage) s)))
  /\ (forall s,
         Forall active (CatalogLocal.products s) ->
         Forall active (CatalogLocal.products (exec CatalogLocal.fetchProducts s)))
  /\ (forall selectedCategory searchQuery sortBy s,
         Forall active (CatalogLocal.products s) ->
         Forall active
           (CatalogLocal.filteredProducts
              (exec (CatalogLocal.refilter selectedCategory searchQuery sortBy) s)))
  /\ (forall productId s,
         shows_active s ->
         shows_active (exec (ProductDetail.fetchProduct productId) s))
  /\ (forall user es s,
         shows_active s ->
         shows_active (exec (ProductDetail.interact user es) s))
  /\ (forall s l, eval Home.getPopularProducts s = Returned l -> Forall active l).
Proof.
  split; [intros; apply catalog_rows_active|].
  split; [intros; apply local_rows_active|].
  split; [intros productId w p H; apply (product_single_active _ _ _ H)|].
  split; [intros; apply popular_rows_active|].
  split.
  { intros c q o n s Hs. rewrite catalog_fetch_products.
    destruct (next_fault (Catalog.remote s)); auto using catalog_rows_active. }
  split.
  { intros s Hs. pose proof (local_fetch_products s) as H. cbn zeta in H.
    destruct (next_fault (CatalogLocal.remote s)); destruct H as [-> _];
      auto using local_rows_active. }
  split.
  { intros c q o s Hs. unfold CatalogLocal.refilter, CatalogLocal.setFilteredProducts.
    run_handler. apply Forall_forall. intros p Hp.
    apply filter_and_sort_In in Hp. rewrite Forall_forall in Hs. auto. }
  split.
  { intros productId s Hs p. rewrite fetchProduct_product.
    destruct (next_fault (ProductDetail.remote s)); try apply Hs.
    destruct (Response.data _) as [d|] eqn:Hd; [|apply Hs].
    intros H. injection H as <-. apply (product_single_active _ _ _ Hd). }
  split.
  { intros user es s Hs p. rewrite interact_product. apply Hs. }
  intros s l. rewrite getPopularProducts_eval. intros H. injection H as <-.
  destruct (configured s); [|constructor].
  destruct (Home.createClient_throws s); [constructor|].
  destruct (next_fault (Home.remote s)); try constructor.
  apply popular_rows_active.
Qed.

(** ** A product out of stock *)

Lemma view_out_of_stock (user : option User.t) (p : Product.t)
    (s : ProductDetail.Page) :
  ProductDetail.product s = Some p ->
  Product.stock_quantity p = 0 ->
  ProductDetail.view user s = [].
Proof.
  intros Hp Hstock. unfold ProductDetail.view. rewrite Hp, Hstock. cbn.
  destruct (ProductDetail.loading s); [reflexivity|].
  destruct (JS.truthy_str (ProductDetail.error s)); reflexivity.
Qed.

Lemma dispatch_unrendered (user : option User.t) (e : ProductDetail.event)
    (s : ProductDetail.Page) :
  ProductDetail.view user s = [] ->
  exec (ProductDetail.dispatch user e) s = s.
Proof.
  intros Hv. rewrite exec_dispatch. unfold ProductDetail.enabled.
  rewrite Hv. reflexivity.
Qed.

(** C9. Out-of-stock safety: for a product whose [stock_quantity] is 0 the
    page renders none of the controls of the purchase box (no quantity
    selector, no add button), so no control answers, and whatever the user
    does leaves the page and the store as they were: no line of the cart is
    written and no call is sent. *)
Theorem out_of_stock_no_write (user : option User.t) (p : Product.t)
    (s : ProductDetail.Page) (es : list ProductDetail.event) :
  ProductDetail.product s = Some p ->
  Product.stock_quantity p = 0 ->
  ProductDetail.view user s = []
  /\ (forall c, ProductDetail.enabled user s c = false)
  /\ exec (ProductDetail.interact user es) s = s
  /\ Store.cart_items (ProductDetail.remote (exec (ProductDetail.interact user es) s))
     = Store.cart_items (ProductDetail.remote s)
  /\ Store.log (ProductDetail.remote (exec (ProductDetail.interact user es) s))
     = Store.log (ProductDetail.remote s).
Proof.
  intros Hp Hstock.
  pose proof (view_out_of_stock user p s Hp Hstock) as Hv.
  assert (Hrun : exec (ProductDetail.interact user es) s = s).
  { induction es as [|e es IH].
    - reflexivity.
    - rewrite exec_interact_cons, (dispatch_unrendered user e s Hv). exact IH. }
  split; [exact Hv|].
  split; [intros c; unfold ProductDetail.enabled; rewrite Hv; reflexivity|].
  split; [exact Hrun|].
  rewrite Hrun. split; reflexivity.
Qed.

Lemma out_of_stock_no_write_witness :
  ProductDetail.product Sample.sold_out_page = Some Sample.sold_out
  /\ Product.stock_quantity Sample.sold_out = 0
  /\ exec (ProductDetail.interact (Some Sample.alice)
             [ProductDetail.ClickPlus; ProductDetail.ClickAddToCart])
        Sample.sold_out_page
      = Sample.sold_out_page.
Proof.
  split; [reflexivity|]. split; [reflexivity|].
  exact (proj1 (proj2 (proj2
           (out_of_stock_no_write (Some Sample.alice) Sample.sold_out
              Sample.sold_out_page
              [ProductDetail.ClickPlus; ProductDetail.ClickAddToCart]
              eq_refl eq_refl)))).
Defined.

(** ** Pagination *)

Lemma firstn_plus {A : Type} (a b : nat) (l : list A) :
  firstn (a + b) l = (firstn a l ++ firstn b (skipn a l))%list.
Proof.
  revert l; induction a as [|a IH]; intros l; simpl.
  - reflexivity.
  - destruct l as [|x l]; simpl.
    + rewrite firstn_nil. reflexivity.
    + rewrite IH. reflexivity.
Qed.

(** The first [m] windows of [p] rows, one after the other, are the first
    [m * p] rows. *)
Lemma concat_windows {A : Type} (p m : nat) (l : list A) :
  List.concat (map (fun k => firstn p (skipn (k * p) l)) (seq 0 m))
  = firstn (m * p) l.
Proof.
  induction m as [|m IH].
  - reflexivity.
  - rewrite seq_S, map_app, concat_app, IH. cbn [map List.concat Nat.add].
    rewrite app_nil_r.
    replace (S m * p)%nat with (m * p + p)%nat by lia.
    symmetry. apply firstn_plus.
Qed.

Lemma ceil_div_covers (a b : Z) : 0 < b -> 0 <= a ->
  0 <= ceil_div a b /\ a <= ceil_div a b * b.
Proof.
  intros Hb Ha. unfold ceil_div.
  pose proof (Z.mul_div_le (- a) b Hb) as Hle.
  assert (Hneg : - a / b <= 0).
  { apply Z.div_le_upper_bound; lia. }
  split; nia.
Qed.

Lemma slice_page {A : Type} (pageSize n : Z) (l : list A) :
  0 < pageSize -> 1 <= n ->
  slice (Catalog.page_from pageSize n) (Catalog.page_to pageSize n) l
  = firstn (Z.to_nat pageSize) (skipn (Z.to_nat (n - 1) * Z.to_nat pageSize) l).
Proof.
  intros Hp Hn. unfold slice, Catalog.page_to, Catalog.page_from.
  replace ((n - 1) * pageSize + pageSize - 1 - (n - 1) * pageSize + 1)
    with pageSize by lia.
  replace (Z.to_nat ((n - 1) * pageSize))
    with (Z.to_nat (n - 1) * Z.to_nat pageSize)%nat by nia.
  reflexivity.
Qed.

Lemma concat_pages {A : Type} (pageSize : Z) (l : list A) :
  0 < pageSize ->
  List.concat (map (fun n => slice (Catalog.page_from pageSize n)
                          (Catalog.page_to pageSize n) l)
            (page_numbers pageSize (Z.of_nat (List.length l))))
  = l.
Proof.
  intros Hp. unfold page_numbers.
  set (m := Z.to_nat (ceil_div (Z.of_nat (List.length l)) pageSize)).
  rewrite map_map.
  rewrite <- seq_shift, map_map.
  erewrite map_ext.
  - rewrite (concat_windows (Z.to_nat pageSize) m l).
    apply firstn_all2.
    destruct (ceil_div_covers (Z.of_nat (List.length l)) pageSize Hp) as [H0 H1];
      [lia|].
    unfold m. nia.
  - intros k. cbv beta. rewrite slice_page by lia.
    replace (Z.to_nat (Z.of_nat (S k) - 1)) with k by lia.
    reflexivity.
Qed.

Lemma catalog_query_rows (selectedCategory searchQuery sortBy : string)
    (currentPage : Z) (w : Store.t) :
  let q := Catalog.base_query selectedCategory searchQuery sortBy in
  rows (Catalog.catalog_query selectedCategory searchQuery sortBy currentPage) w
  = slice (Catalog.page_from Catalog.ITEMS_PER_PAGE currentPage)
      (Catalog.page_to Catalog.ITEMS_PER_PAGE currentPage)
      (ordered q (matching q w)).
Proof.
  cbv zeta. unfold rows, windowed, Catalog.catalog_query. cbn.
  assert (Hl : limit_ (Catalog.base_query selectedCategory searchQuery sortBy) = None).
  { unfold Catalog.base_query.
    destruct (negb (String.eqb selectedCategory "all"));
      destruct (negb (String.eqb (JS.trim searchQuery) ""));
      destruct (String.eqb sortBy "name_asc"); reflexivity. }
  rewrite Hl. reflexivity.
Qed.

(** C5. Pagination: page [n >= 1] of size [p] asks for the rows from the
    zero-based offset [(n - 1) * p] to [(n - 1) * p + p - 1], both included,
    that is [p] rows of the filtered and sorted result; the pages of a
    result, one after the other, are the result. The catalog query does so
    with its page size of 12. *)
Theorem pagination_windows (pageSize : Z) (A : Type) (l : list A) :
  0 < pageSize ->
  (forall n, 1 <= n ->
     Catalog.page_from pageSize n = (n - 1) * pageSize
     /\ Catalog.page_to pageSize n - Catalog.page_from pageSize n + 1 = pageSize
     /\ slice (Catalog.page_from pageSize n) (Catalog.page_to pageSize n) l
        = firstn (Z.to_nat pageSize) (skipn (Z.to_nat ((n - 1) * pageSize)) l))
  /\ List.concat (map (fun n => slice (Catalog.page_from pageSize n)
                             (Catalog.page_to pageSize n) l)
               (page_numbers pageSize (Z.of_nat (List.length l))))
     = l
  /\ (forall selectedCategory searchQuery sortBy w,
        let q := Catalog.base_query selectedCategory searchQuery sortBy in
        let result := ordered q (matching q w) in
        let page n :=
          rows (Catalog.catalog_query selectedCategory searchQuery sortBy n) w in
        (forall n,
            range_ (Catalog.catalog_query selectedCategory searchQuery sortBy n)
            = Some ((n - 1) * Catalog.ITEMS_PER_PAGE,
                    (n - 1) * Catalog.ITEMS_PER_PAGE + Catalog.ITEMS_PER_PAGE - 1)
            /\ page n
               = slice (Catalog.page_from Catalog.ITEMS_PER_PAGE n)
                   (Catalog.page_to Catalog.ITEMS_PER_PAGE n) result)
        /\ List.concat (map page
                     (page_numbers Catalog.ITEMS_PER_PAGE
                        (Z.of_nat (List.length result))))
           = result).
Proof.
  intros Hp. split; [|split].
  - intros n Hn. split; [reflexivity|].
    split; [unfold Catalog.page_to; lia|].
    unfold slice, Catalog.page_to, Catalog.page_from.
    replace ((n - 1) * pageSize + pageSize - 1 - (n - 1) * pageSize + 1)
      with pageSize by lia.
    reflexivity.
  - apply concat_pages, Hp.
  - intros c t o w q result page. split.
    + intros n. split; [reflexivity|].
      apply catalog_query_rows.
    + erewrite map_ext; [apply concat_pages; reflexivity|].
      intros n. apply catalog_query_rows.
Qed.

Lemma pagination_windows_witness :
  0 < Catalog.ITEMS_PER_PAGE
  /\ List.concat
       (map (fun n => slice (Catalog.page_from Catalog.ITEMS_PER_PAGE n)
                        (Catalog.page_to Catalog.ITEMS_PER_PAGE n) (seq 0 30))
          (page_numbers Catalog.ITEMS_PER_PAGE 30))
     = seq 0 30.
Proof.
  split; [reflexivity|].
  exact (proj1 (proj2 (pagination_windows Catalog.ITEMS_PER_PAGE nat (seq 0 30)
                         eq_refl))).
Defined.

(** ** The cart upsert *)

Lemma existing_rows (u : User.t) (p : Product.t) (w : Store.t) :
  rows (ProductDetail.existing_query u p) w = lines u p (Store.cart_items w).
Proof.
  unfold rows, matching, ProductDetail.existing_query, lines, is_line; cbn.
  apply filter_ext. intros r. rewrite andb_true_r. reflexivity.
Qed.

Lemma answered_three (w : Store.t) :
  answered w ->
  Store.faults w = []
  \/ Store.faults w = [Fine]
  \/ Store.faults w = [Fine; Fine]
  \/ exists fs, Store.faults w = Fine :: Fine :: Fine :: fs /\ Forall (fun f => f = Fine) fs.
Proof.
  unfold answered.
  destruct (Store.faults w) as [|f1 [|f2 [|f3 fs]]]; intros H; auto.
  - inversion H; subst. auto.
  - inversion H as [|? ? H1 H2]; subst. inversion H2; subst. auto.
  - inversion H as [|? ? H1 H2]; subst. inversion H2 as [|? ? H3 H4]; subst.
    inversion H4; subst. right; right; right. eexists; split; eauto.
Qed.

(** The cart after [handleAddToCart] when every call is answered. *)
Lemma handleAddToCart_answered (u : User.t) (p : Product.t)
    (s : ProductDetail.Page) :
  ProductDetail.product s = Some p ->
  answered (ProductDetail.remote s) ->
  let s' := exec (ProductDetail.handleAddToCart (Some u)) s in
  cart_of s'
  = match lines u p (cart_of s) with
    | [item] =>
        map (set_line_quantity item
               (CartItem.quantity item + ProductDetail.quantity s))
          (cart_of s)
    | _ =>
        (cart_of s ++
         [CartItem.mk (fresh_id (cart_of s)) (User.id u) (Product.id p)
            (ProductDetail.quantity s)])%list
    end
  /\ answered (ProductDetail.remote s')
  /\ ProductDetail.showDialog s' = true
  /\ ProductDetail.alerts s' = ProductDetail.alerts s.
Proof.
  intros Hp Hans. cbv zeta. unfold cart_of.
  rewrite <- (existing_rows u p (ProductDetail.remote s)).
  unfold_detail. unfold_monad.
  cbn -[rows]. rewrite Hp. unfold answer_single, answered in *.
  destruct (rows (ProductDetail.existing_query u p) (ProductDetail.remote s))
    as [|item [|item' l]];
    unfold next_fault, after_call, with_cart_items; cbn -[rows];
    destruct (answered_three _ Hans) as [H|[H|[H|(fs & H & Hfs)]]];
    rewrite H; cbn -[rows]; repeat split; try constructor; try assumption;
    try (apply map_ext; intros r; unfold set_line_quantity;
         rewrite andb_true_r; reflexivity).
Qed.

Lemma is_line_key (u : User.t) (p : Product.t) (r : CartItem.t) :
  is_line u p r = true <-> line_key r = (User.id u, Product.id p).
Proof.
  unfold is_line, line_key. rewrite andb_true_iff, !String.eqb_eq.
  split.
  - intros [-> ->]. reflexivity.
  - intros H. injection H as -> ->. split; reflexivity.
Qed.

Lemma lines_none (u : User.t) (p : Product.t) (cart : list CartItem.t) :
  lines u p cart = [] <-> ~ In (User.id u, Product.id p) (map line_key cart).
Proof.
  unfold lines. split.
  - intros Hnil Hin. apply in_map_iff in Hin as (r & Hk & Hr).
    assert (Hf : In r (filter (is_line u p) cart)).
    { apply filter_In. split; [exact Hr | apply is_line_key, Hk]. }
    rewrite Hnil in Hf. exact Hf.
  - intros Hnot. induction cart as [|r cart IH]; [reflexivity|].
    cbn. destruct (is_line u p r) eqn:Hr.
    + exfalso. apply Hnot. left. symmetry. apply is_line_key in Hr.
      symmetry. exact Hr.
    + apply IH. intros Hin. apply Hnot. right. exact Hin.
Qed.

(** With at most one line for a user and a product, the look-up finds it. *)
Lemma lines_unique (u : User.t) (p : Product.t) (cart : list CartItem.t)
    (item : CartItem.t) :
  NoDup (map line_key cart) ->
  In item cart -> is_line u p item = true ->
  lines u p cart = [item].
Proof.
  induction cart as [|r cart IH]; intros Hnd Hin Hline; [contradiction|].
  cbn in Hnd. inversion Hnd as [|? ? Hr Hnd']; subst.
  unfold lines. cbn. destruct Hin as [->|Hin].
  - rewrite Hline. f_equal. apply lines_none.
    apply is_line_key in Hline. rewrite <- Hline. exact Hr.
  - destruct (is_line u p r) eqn:Hrl.
    + exfalso. apply Hr. apply is_line_key in Hrl. apply is_line_key in Hline.
      rewrite Hrl, <- Hline. apply in_map, Hin.
    + apply IH; assumption.
Qed.

Lemma fresh_id_above (cart : list CartItem.t) (r : CartItem.t) :
  In r cart -> CartItem.id r < fresh_id cart.
Proof.
  unfold fresh_id. induction cart as [|x cart IH]; [contradiction|].
  cbn [map fold_right]. intros [->|Hin].
  - lia.
  - specialize (IH Hin). lia.
Qed.

Lemma fresh_id_new (cart : list CartItem.t) :
  ~ In (fresh_id cart) (map CartItem.id cart).
Proof.
  intros Hin. apply in_map_iff in Hin as (r & Hid & Hr).
  apply fresh_id_above in Hr. lia.
Qed.

Section Update.
Variables (item : CartItem.t) (q : Z).

Lemma update_ids (cart : list CartItem.t) :
  map CartItem.id (map (set_line_quantity item q) cart) = map CartItem.id cart.
Proof.
  rewrite map_map. apply map_ext. intros r. unfold set_line_quantity.
  destruct (CartItem.id r =? CartItem.id item); reflexivity.
Qed.

Lemma update_keys (cart : list CartItem.t) :
  map line_key (map (set_line_quantity item q) cart) = map line_key cart.
Proof.
  rewrite map_map. apply map_ext. intros r. unfold set_line_quantity.
  destruct (CartItem.id r =? CartItem.id item); reflexivity.
Qed.

Lemma update_lines (u : User.t) (p : Product.t) (cart : list CartItem.t) :
  lines u p (map (set_line_quantity item q) cart) = map (set_line_quantity item q) (lines u p cart).
Proof.
  unfold lines. induction cart as [|r cart IH]; [reflexivity|].
  cbn. assert (Hl : is_line u p (set_line_quantity item q r) = is_line u p r).
  { unfold set_line_quantity. destruct (CartItem.id r =? CartItem.id item); reflexivity. }
  rewrite Hl. destruct (is_line u p r); cbn; rewrite IH; reflexivity.
Qed.

Lemma update_others (cart : list CartItem.t) (r : CartItem.t) :
  NoDup (map CartItem.id cart) ->
  In item cart -> In r cart -> r <> item -> In r (map (set_line_quantity item q) cart).
Proof.
  intros Hnd Hitem Hr Hne. apply in_map_iff. exists r. split; [|exact Hr].
  unfold set_line_quantity. destruct (Z.eqb_spec (CartItem.id r) (CartItem.id item)) as [Heq|];
    [|reflexivity].
  exfalso. apply Hne. clear Hne.
  induction cart as [|x cart IH]; [contradiction|].
  cbn in Hnd. inversion Hnd as [|? ? Hx Hnd']; subst.
  destruct Hitem as [->|Hitem]; destruct Hr as [->|Hr]; auto.
  - exfalso. apply Hx. rewrite <- Heq. apply in_map, Hr.
  - exfalso. apply Hx. rewrite Heq. apply in_map, Hitem.
Qed.

End Update.

Lemma upsert_preserves_wf (u : User.t) (p : Product.t) (s : ProductDetail.Page) :
  ProductDetail.product s = Some p ->
  answered (ProductDetail.remote s) ->
  cart_wf (cart_of s) ->
  cart_wf (cart_of (exec (ProductDetail.handleAddToCart (Some u)) s)).
Proof.
  intros Hp Hans [Hids Hkeys].
  destruct (handleAddToCart_answered u p s Hp Hans) as (Hcart & _).
  rewrite Hcart.
  destruct (lines u p (cart_of s)) as [|item [|item' l]] eqn:Hl.
  - split; rewrite map_app; cbn.
    + apply NoDup_app_remove_l with (l := []); cbn.
      apply Permutation_NoDup with (l := fresh_id (cart_of s) :: map CartItem.id (cart_of s)).
      * apply Permutation_cons_append.
      * constructor; [apply fresh_id_new | exact Hids].
    + apply Permutation_NoDup
        with (l := (User.id u, Product.id p) :: map line_key (cart_of s)).
      * apply Permutation_cons_append.
      * constructor; [apply lines_none, Hl | exact Hkeys].
  - split; [rewrite update_ids | rewrite update_keys]; assumption.
  - exfalso.
    assert (H1 : In item (lines u p (cart_of s))) by (rewrite Hl; left; reflexivity).
    apply filter_In in H1 as [H1 H1'].
    rewrite (lines_unique u p _ item Hkeys H1 H1') in Hl. discriminate.
Qed.

Lemma exec_setQuantity_then (q : Z) (user : option User.t) (s : ProductDetail.Page) :
  exec (ProductDetail.setQuantity q ;;; ProductDetail.handleAddToCart user) s
  = exec (ProductDetail.handleAddToCart user) (exec (ProductDetail.setQuantity q) s).
Proof. reflexivity. Qed.

(** C1. Cart upsert: when the store answers and the cart has at most one
    line for a user and a product, [handleAddToCart] sets the quantity of the
    existing line of the user for the product to its quantity plus the
    requested one and leaves every other line alone, or, when there is no
    such line, appends one line with the requested quantity. The cart keeps
    at most one line for a user and a product, so adding [q] and then [q2]
    to a cart without such a line leaves exactly one line, of quantity
    [q + q2]. *)
Theorem cart_upsert (u : User.t) (p : Product.t) (s : ProductDetail.Page) :
  ProductDetail.product s = Some p ->
  answered (ProductDetail.remote s) ->
  cart_wf (cart_of s) ->
  let q := ProductDetail.quantity s in
  let s' := exec (ProductDetail.handleAddToCart (Some u)) s in
  (forall item,
      In item (cart_of s) -> is_line u p item = true ->
      lines u p (cart_of s')
      = [ProductDetail.set_quantity (CartItem.quantity item + q) item]
      /\ List.length (cart_of s') = List.length (cart_of s)
      /\ (forall r, In r (cart_of s) -> r <> item -> In r (cart_of s')))
  /\ (lines u p (cart_of s) = [] ->
      cart_of s'
      = (cart_of s ++
         [CartItem.mk (fresh_id (cart_of s)) (User.id u) (Product.id p) q])%list)
  /\ cart_wf (cart_of s')
  /\ (forall q2,
        lines u p (cart_of s) = [] ->
        lines u p
          (cart_of (exec (ProductDetail.setQuantity q2 ;;;
                          ProductDetail.handleAddToCart (Some u)) s'))
        = [CartItem.mk (fresh_id (cart_of s)) (User.id u) (Product.id p) (q + q2)]).
Proof.
  intros Hp Hans Hwf q s'.
  destruct (handleAddToCart_answered u p s Hp Hans) as (Hcart & Hans' & _).
  fold s' in Hcart, Hans'.
  assert (Hwf' : cart_wf (cart_of s'))
    by (apply (upsert_preserves_wf u p); assumption).
  split; [|split; [|split; [exact Hwf'|]]].
  - intros item Hin Hline.
    rewrite (lines_unique u p _ item (proj2 Hwf) Hin Hline) in Hcart.
    rewrite Hcart. split; [|split].
    + rewrite update_lines, (lines_unique u p _ item (proj2 Hwf) Hin Hline).
      cbn [map]. unfold set_line_quantity. rewrite Z.eqb_refl. reflexivity.
    + apply length_map.
    + intros r Hr Hne. apply update_others; try assumption. exact (proj1 Hwf).
  - intros Hnone. rewrite Hnone in Hcart. exact Hcart.
  - intros q2 Hnone. rewrite Hnone in Hcart.
    rewrite exec_setQuantity_then.
    set (s1 := exec (ProductDetail.setQuantity q2) s').
    assert (Hp1 : ProductDetail.product s1 = Some p).
    { unfold s1. cbn. unfold s'.
      rewrite (proj1 (handleAddToCart_frame (Some u) s)). exact Hp. }
    assert (Hc1 : cart_of s1 = cart_of s') by reflexivity.
    assert (Hans1 : answered (ProductDetail.remote s1)) by exact Hans'.
    assert (Hwf1 : cart_wf (cart_of s1)) by (rewrite Hc1; exact Hwf').
    set (new := CartItem.mk (fresh_id (cart_of s)) (User.id u) (Product.id p) q).
    assert (Hnew : is_line u p new = true).
    { unfold is_line, new. cbn. rewrite !String.eqb_refl. reflexivity. }
    assert (Hin : In new (cart_of s1)).
    { rewrite Hc1, Hcart. apply in_or_app. right. left. reflexivity. }
    destruct (handleAddToCart_answered u p s1 Hp1 Hans1) as (Hcart2 & _).
    rewrite (lines_unique u p _ new (proj2 Hwf1) Hin Hnew) in Hcart2.
    rewrite Hcart2, update_lines, (lines_unique u p _ new (proj2 Hwf1) Hin Hnew).
    cbn [map]. unfold set_line_quantity. rewrite Z.eqb_refl. reflexivity.
Qed.

Lemma cart_upsert_witness :
  ProductDetail.product Sample.shirt_page = Some Sample.shirt
  /\ answered (ProductDetail.remote Sample.shirt_page)
  /\ cart_wf (cart_of Sample.shirt_page)
  /\ lines Sample.alice Sample.shirt
       (cart_of
          (exec (ProductDetail.setQuantity 3 ;;;
                 ProductDetail.handleAddToCart (Some Sample.alice))
             (exec (ProductDetail.handleAddToCart (Some Sample.alice))
                Sample.shirt_page)))
     = [CartItem.mk 2 "user_alice" "p1" 5].
Proof.
  assert (Hans : answered (ProductDetail.remote Sample.shirt_page))
    by constructor.
  assert (Hwf : cart_wf (cart_of Sample.shirt_page)).
  { split; cbn; (constructor; [intros []|constructor]). }
  split; [reflexivity|]. split; [exact Hans|]. split; [exact Hwf|].
  exact (proj2 (proj2 (proj2
           (cart_upsert Sample.alice Sample.shirt Sample.shirt_page
              eq_refl Hans Hwf))) 3 eq_refl).
Defined.

(** ** Errors during the cart upsert *)

(** X1. When the look-up is answered and the write is not, the handler
    stops: the cart is as it was, the failure is reported by one alert, the
    dialog is not opened, and no call follows the failed one. *)
Lemma write_error_aborts (u : User.t) (p : Product.t) (s : ProductDetail.Page)
    (f : fault) (fs : list fault) :
  ProductDetail.product s = Some p ->
  Store.faults (ProductDetail.remote s) = Fine :: f :: fs ->
  f <> Fine ->
  let s' := exec (ProductDetail.handleAddToCart (Some u)) s in
  cart_of s' = cart_of s
  /\ ProductDetail.alerts s'
     = (ProductDetail.alerts s ++ ["장바구니 추가 중 오류가 발생했습니다."])%list
  /\ ProductDetail.showDialog s' = ProductDetail.showDialog s
  /\ ProductDetail.cartItemCount s' = ProductDetail.cartItemCount s
  /\ ProductDetail.addingToCart s' = false
  /\ List.length (Store.log (ProductDetail.remote s'))
     = (List.length (Store.log (ProductDetail.remote s)) + 2)%nat
  /\ Store.faults (ProductDetail.remote s') = fs.
Proof.
  intros Hp Hf Hne. cbv zeta. unfold cart_of.
  unfold_detail. unfold_monad.
  cbn -[rows]. rewrite Hp. unfold answer_single.
  destruct (rows (ProductDetail.existing_query u p) (ProductDetail.remote s))
    as [|item [|item' l]];
    unfold next_fault, after_call, with_cart_items; cbn -[rows];
    rewrite Hf; cbn -[rows];
    (destruct f as [|e|e]; [contradiction| |]);
    cbn -[rows]; rewrite ?length_app; cbn; repeat split; lia.
Qed.

(** C6, at the failing input: the look-up of the line of the user meets a
    network error; the handler does not stop, it inserts a second line for
    the same user and product, counts the lines, opens the dialog and
    reports nothing. *)
Theorem lookup_error_still_writes :
  let s' := exec (ProductDetail.handleAddToCart (Some Sample.alice))
              Sample.shirt_offline in
  lines Sample.alice Sample.shirt (cart_of Sample.shirt_offline)
  = [Sample.alice_line]
  /\ cart_of s'
     = [Sample.bob_line; Sample.alice_line; CartItem.mk 3 "user_alice" "p1" 1]
  /\ Store.log (ProductDetail.remote s')
     = [Select "cart_items"; Insert "cart_items"; Select "cart_items"]
  /\ ProductDetail.alerts s' = []
  /\ ProductDetail.showDialog s' = true.
Proof. cbv zeta. repeat split. Qed.

(** The count of the lines after the write meets an error: it is taken for
    0 and the dialog is opened all the same. *)
Lemma count_error_ignored :
  let s' := exec (ProductDetail.handleAddToCart (Some Sample.alice))
              Sample.shirt_count_offline in
  ProductDetail.cartItemCount s' = 0
  /\ ProductDetail.alerts s' = []
  /\ ProductDetail.showDialog s' = true.
Proof. cbv zeta. repeat split. Qed.

(** ** The bounds of the quantity *)

Lemma on_event_selectable (user : option User.t) (e : ProductDetail.event)
    (p : Product.t) (s : ProductDetail.Page) :
  ProductDetail.product s = Some p ->
  1 <= Product.stock_quantity p ->
  selectable p (ProductDetail.quantity s) ->
  selectable p (ProductDetail.quantity (exec (ProductDetail.on_event user e) s)).
Proof.
  intros Hp Hstock Hq. unfold selectable, ProductDetail.maxQuantity in *.
  destruct e.
  - unfold ProductDetail.on_event, exec, bind, get; cbn.
    destruct (ProductDetail.product s); cbn; lia.
  - unfold ProductDetail.on_event, exec, bind, get; cbn. rewrite Hp. cbn.
    unfold ProductDetail.maxQuantity. lia.
  - unfold ProductDetail.on_event, exec, bind, get; cbn. rewrite Hp. cbn.
    unfold ProductDetail.maxQuantity. lia.
  - replace (ProductDetail.quantity (exec (ProductDetail.on_event user ProductDetail.ClickAddToCart) s))
      with (ProductDetail.quantity (exec (ProductDetail.handleAddToCart user) s)).
    + rewrite (proj1 (proj2 (handleAddToCart_frame user s))). exact Hq.
    + unfold ProductDetail.on_event, exec, bind, get; cbn.
      destruct (ProductDetail.product s); reflexivity.
Qed.

(** X2. The quantity selector never leaves [1 .. min(stock_quantity, 99)]:
    for a product in stock, whatever the user clicks or types (also text
    that is no number, 0, a negative or a huge number), the selected
    quantity stays within these bounds. *)
Lemma selector_within_bounds (user : option User.t) (p : Product.t)
    (es : list ProductDetail.event) (s : ProductDetail.Page) :
  ProductDetail.product s = Some p ->
  1 <= Product.stock_quantity p ->
  selectable p (ProductDetail.quantity s) ->
  selectable p (ProductDetail.quantity (exec (ProductDetail.interact user es) s)).
Proof.
  revert s; induction es as [|e es IH]; intros s Hp Hstock Hq.
  - exact Hq.
  - rewrite exec_interact_cons. apply IH; try assumption.
    + rewrite exec_dispatch.
      destruct (ProductDetail.enabled user s (ProductDetail.target e));
        [rewrite on_event_product|]; exact Hp.
    + rewrite exec_dispatch.
      destruct (ProductDetail.enabled user s (ProductDetail.target e));
        [apply on_event_selectable; assumption | exact Hq].
Qed.

Lemma mounted_selectable (p : Product.t) :
  1 <= Product.stock_quantity p ->
  selectable p (ProductDetail.quantity (ProductDetail.initial (Store.mk [] [] [] [] []))).
Proof. unfold selectable, ProductDetail.maxQuantity. cbn. lia. Qed.

(** C2, at the failing input: 5 in stock, a line of 3 in the cart, 3
    selected (within the bounds of the selector); the stored quantity
    becomes 6, above [min(stock_quantity, 99) = 5]. *)
Theorem increment_exceeds_cap :
  let s' := exec (ProductDetail.handleAddToCart (Some Sample.alice))
              Sample.shirt_again in
  selectable Sample.shirt (ProductDetail.quantity Sample.shirt_again)
  /\ lines Sample.alice Sample.shirt (cart_of Sample.shirt_again)
     = [CartItem.mk 2 "user_alice" "p1" 3]
  /\ lines Sample.alice Sample.shirt (cart_of s')
     = [CartItem.mk 2 "user_alice" "p1" 6]
  /\ ProductDetail.maxQuantity Sample.shirt = 5.
Proof.
  cbv zeta. split; [|repeat split].
  unfold selectable. cbn. lia.
Qed.

(** ** Text search *)

Lemma startsWith_spec (s q : string) :
  JS.startsWith s q = true <-> exists post, s = q ++ post.
Proof.
  revert s; induction q as [|c q IH]; intros s; cbn.
  - split; [intros _; exists s; reflexivity | reflexivity].
  - destruct s as [|d s]; cbn.
    + split; [discriminate | intros [post H]; discriminate].
    + rewrite andb_true_iff, Ascii.eqb_eq, IH. split.
      * intros [-> [post ->]]. exists post. reflexivity.
      * intros [post H]. injection H as -> H. split; [reflexivity|].
        exists post. exact H.
Qed.

Lemma includes_spec (s q : string) :
  JS.includes s q = true <-> exists pre post, s = pre ++ q ++ post.
Proof.
  induction s as [|d s IH]; cbn [JS.includes]; rewrite orb_true_iff.
  - split.
    + intros [H|H]; [|discriminate]. apply startsWith_spec in H as [post H].
      exists "", post. exact H.
    + intros (pre & post & H). left. apply startsWith_spec.
      destruct pre; [exists post; exact H | discriminate].
  - rewrite IH. split.
    + intros [H|(pre & post & H)].
      * apply startsWith_spec in H as [post H]. exists "", post. exact H.
      * exists (String d pre), post. cbn. rewrite H. reflexivity.
    + intros (pre & post & H). destruct pre as [|c pre].
      * left. apply startsWith_spec. exists post. exact H.
      * right. injection H as _ H. exists pre, post. exact H.
Qed.

(** [JS.includes] on the lower-cased texts decides [ci_substring]. *)
Lemma includes_ci (q s : string) :
  JS.includes (JS.toLowerCase s) (JS.toLowerCase q) = true <-> ci_substring q s.
Proof. apply includes_spec. Qed.

Lemma like_any (p s : string) :
  like (String "%" p) s
  = like p s || match s with
                | EmptyString => false
                | String _ s' => like (String "%" p) s'
                end.
Proof. destruct s; reflexivity. Qed.

Lemma like_all (s : string) : like "%" s = true.
Proof.
  induction s as [|d s IH].
  - reflexivity.
  - rewrite like_any, IH. apply orb_true_r.
Qed.

Lemma plain_char_literal (c : ascii) :
  plain_char c = true ->
  is_percent c = false /\ is_underscore c = false /\ is_backslash c = false
  /\ is_star c = false.
Proof.
  destruct c as [[] [] [] [] [] [] [] []]; cbn; intros H;
    try discriminate; repeat split.
Qed.

Lemma plain_char_lower (c : ascii) :
  plain_char c = true -> plain_char (JS.lower_char c) = true.
Proof.
  destruct c as [[] [] [] [] [] [] [] []]; cbn; intros H;
    try discriminate; reflexivity.
Qed.

Lemma plain_lower (q : string) : plain q = true -> plain (JS.toLowerCase q) = true.
Proof.
  induction q as [|c q IH]; cbn; [reflexivity|].
  rewrite !andb_true_iff. intros [Hc Hq].
  split; [apply plain_char_lower, Hc | apply IH, Hq].
Qed.

Lemma star_to_percent_plain (q : string) :
  plain q = true -> star_to_percent q = q.
Proof.
  induction q as [|c q IH]; cbn; [reflexivity|].
  rewrite andb_true_iff. intros [Hc Hq].
  destruct (plain_char_literal c Hc) as (_ & _ & _ & Hs).
  rewrite Hs, (IH Hq). reflexivity.
Qed.

Lemma star_to_percent_app (a b : string) :
  star_to_percent (a ++ b) = star_to_percent a ++ star_to_percent b.
Proof. induction a as [|c a IH]; cbn; [reflexivity | rewrite IH; reflexivity]. Qed.

Lemma toLowerCase_app (a b : string) :
  JS.toLowerCase (a ++ b) = JS.toLowerCase a ++ JS.toLowerCase b.
Proof. induction a as [|c a IH]; cbn; [reflexivity | rewrite IH; reflexivity]. Qed.

(** A plain text followed by [%] matches the texts it is a prefix of. *)
Lemma like_plain_prefix (q s : string) :
  plain q = true -> like (q ++ "%") s = JS.startsWith s q.
Proof.
  revert s; induction q as [|c q IH]; intros s Hq.
  - cbn [append]. rewrite like_all. reflexivity.
  - cbn in Hq. apply andb_true_iff in Hq as [Hc Hq].
    destruct (plain_char_literal c Hc) as (H1 & H2 & H3 & _).
    cbn [append like]. rewrite H1, H2, H3.
    destruct s as [|d s]; [reflexivity|].
    cbn [JS.startsWith]. rewrite (IH s Hq). reflexivity.
Qed.

Lemma like_plain_includes (q s : string) :
  plain q = true -> like (String "%" (q ++ "%")) s = JS.includes s q.
Proof.
  intros Hq. induction s as [|d s IH].
  - rewrite like_any, like_plain_prefix by exact Hq. reflexivity.
  - rewrite like_any, like_plain_prefix by exact Hq.
    cbn [JS.includes]. rewrite IH. reflexivity.
Qed.

(** For a plain query the pattern of the catalog is a substring test up to
    letter case. *)
Lemma ilike_plain (q s : string) :
  plain q = true ->
  ilike ("%" ++ q ++ "%") s = JS.includes (JS.toLowerCase s) (JS.toLowerCase q).
Proof.
  intros Hq. unfold ilike.
  change ("%" ++ q ++ "%") with (String "%" (q ++ "%")).
  cbn [star_to_percent JS.toLowerCase]. rewrite star_to_percent_app.
  rewrite (star_to_percent_plain q Hq), toLowerCase_app.
  change (is_star "%") with false. cbv iota.
  change (JS.lower_char "%") with "%"%char.
  change (JS.toLowerCase (star_to_percent "%")) with "%".
  apply like_plain_includes, plain_lower, Hq.
Qed.

(** ** The filters of the catalog *)








(** X13. The catalog filtered by the store keeps exactly these products
    when the query is blank or made of letters, digits and spaces. *)
Lemma remote_filter_plain (c q sortBy : string) (w : Store.t) :
  plain q = true ->
  matching (Catalog.base_query c q sortBy) w
  = filter (catalog_match c q) (Store.products w).
Proof.
  intros Hq. unfold matching, Catalog.base_query, catalog_match, category_ok,
    text_ok. fold (blank q).
  destruct (String.eqb c "all"); destruct (blank q) eqn:Hb;
    destruct (String.eqb sortBy "name_asc"); cbn -[ilike];
    apply filter_ext; intros p;
    unfold ilike_col, ilike_col_opt;
    rewrite ?(ilike_plain q _ Hq);
    destruct (Product.is_active p); cbn -[ilike]; try reflexivity;
    destruct (Product.category p) as [c'|]; cbn -[ilike]; try reflexivity;
    try destruct (String.eqb c' c); cbn -[ilike]; try reflexivity;
    destruct (Product.description p) as [d|]; cbn -[ilike];
    rewrite ?(ilike_plain q _ Hq), ?orb_false_r, ?andb_true_r; reflexivity.
Qed.

(** C3, at the failing input: the query is the single character "_"; the
    store reads it as a pattern that any character satisfies, and the page
    shows the active products although "_" occurs in no name and in no
    description. In the catalog that filters in the browser the same query
    keeps no product. *)
Theorem wildcard_query_matches_all :
  rows (Catalog.catalog_query "all" "_" "newest" 1) Sample.catalog_store
  = [Sample.shirt; Sample.sold_out; Sample.novel]
  /\ filter (catalog_match "all" "_") (Store.products Sample.catalog_store) = []
  /\ CatalogLocal.filter_and_sort
       (rows CatalogLocal.products_query Sample.catalog_store) "all" "_" "newest"
     = [].
Proof. repeat split. Qed.

(** ** The sort keys of the catalog *)

Lemma catalog_result_sort (c q sortBy : string) (w : Store.t) :
  catalog_result c q sortBy w
  = stable_sort (if String.eqb sortBy "name_asc"
                 then asc_text Product.name
                 else desc Product.created_at)
      (matching (Catalog.base_query c q sortBy) w).
Proof.
  unfold catalog_result, ordered, Catalog.base_query.
  destruct (negb (String.eqb c "all"));
    destruct (negb (String.eqb (JS.trim q) ""));
    destruct (String.eqb sortBy "name_asc"); reflexivity.
Qed.

Lemma base_query_sort_irrelevant (c q sortBy sortBy' : string) (w : Store.t) :
  matching (Catalog.base_query c q sortBy) w
  = matching (Catalog.base_query c q sortBy') w.
Proof.
  unfold matching, Catalog.base_query.
  destruct (negb (String.eqb c "all"));
    destruct (negb (String.eqb (JS.trim q) ""));
    destruct (String.eqb sortBy "name_asc");
    destruct (String.eqb sortBy' "name_asc"); reflexivity.
Qed.

Lemma sorted_newest (l : list Product.t) :
  StronglySorted newest_first (stable_sort (desc Product.created_at) l).
Proof.
  apply StronglySorted_weaken
    with (R := fun a b => desc Product.created_at a b = true).
  - intros a b Hab. unfold desc in Hab. unfold newest_first. lia.
  - apply stable_sort_sorted; [apply desc_total | apply desc_trans].
Qed.

Lemma sorted_name (l : list Product.t) :
  StronglySorted name_ascending (stable_sort (asc_text Product.name) l).
Proof.
  apply (stable_sort_sorted (asc_text Product.name)).
  - intros a b. apply text_leb_total.
  - intros a b c. apply text_leb_trans.
Qed.

Lemma sorted_by_compare (key : Product.t -> Product.t -> Z)
    (R : Product.t -> Product.t -> Prop) (l : list Product.t) :
  (forall a b, key a b <= 0 <-> R a b) ->
  (forall a b, R a b \/ R b a) ->
  (forall a b c, R a b -> R b c -> R a c) ->
  StronglySorted R (JS.sort key l).
Proof.
  intros Hkey Htotal Htrans. unfold JS.sort.
  apply StronglySorted_weaken with (R := fun a b => (key a b <=? 0) = true).
  - intros a b Hab. apply Hkey. lia.
  - apply stable_sort_sorted.
    + intros a b. destruct (Htotal a b) as [H|H]; apply Hkey in H;
        [left|right]; lia.
    + intros a b c Hab Hbc. apply Z.leb_le, Hkey.
      apply Z.leb_le, Hkey in Hab. apply Z.leb_le, Hkey in Hbc.
      exact (Htrans _ _ _ Hab Hbc).
Qed.

(** C4, as stated, fails: no flow of the catalog takes all four keys. The
    paginated flow orders a request for [price_asc] by creation time, the
    flow in the browser does the same with [name_asc]; in both cases the
    result is not ordered by the key that was asked for. *)
Lemma sort_key_not_honoured :
  (rows (Catalog.catalog_query "all" "" "price_asc" 1) Sample.catalog_store
   = [Sample.shirt; Sample.sold_out; Sample.novel]
   /\ ~ StronglySorted price_ascending
         (rows (Catalog.catalog_query "all" "" "price_asc" 1) Sample.catalog_store))
  /\ (CatalogLocal.filter_and_sort
        (rows CatalogLocal.products_query Sample.catalog_store) "all" "" "name_asc"
      = [Sample.shirt; Sample.sold_out; Sample.novel]
      /\ ~ StronglySorted name_ascending
            (CatalogLocal.filter_and_sort
               (rows CatalogLocal.products_query Sample.catalog_store)
               "all" "" "name_asc")).
Proof.
  split; (split; [reflexivity|]).
  - intros H. change (StronglySorted price_ascending
                        [Sample.shirt; Sample.sold_out; Sample.novel]) in H.
    inversion H as [|? ? H1 _]; subst. inversion H1 as [|? ? _ H2]; subst.
    inversion H2 as [|? ? H3 _]; subst.
    unfold price_ascending in H3. cbn in H3. lia.
  - intros H. change (StronglySorted name_ascending
                        [Sample.shirt; Sample.sold_out; Sample.novel]) in H.
    inversion H as [|? ? H1 _]; subst. inversion H1 as [|? ? _ H2]; subst.
    inversion H2 as [|? ? H3 _]; subst.
    unfold name_ascending in H3. cbn in H3. discriminate.
Qed.

(** C4, amended. The paginated catalog takes the keys [newest] and
    [name_asc]: its filtered result, and so every page of it, is ordered by
    creation time descending for [newest] and by name ascending for
    [name_asc]. The catalog filtered in the browser takes [newest],
    [price_asc] and [price_desc]: creation time descending, price ascending,
    price descending. Each result holds the same products whatever the key,
    and a key a flow does not take is treated as [newest]. *)
Theorem catalog_sort_keys :
  (forall c q w n,
      StronglySorted newest_first (catalog_result c q "newest" w)
      /\ StronglySorted newest_first
           (rows (Catalog.catalog_query c q "newest" n) w))
  /\ (forall c q w n,
        StronglySorted name_ascending (catalog_result c q "name_asc" w)
        /\ StronglySorted name_ascending
             (rows (Catalog.catalog_query c q "name_asc" n) w))
  /\ (forall c q sortBy w n,
        sortBy <> "name_asc" ->
        rows (Catalog.catalog_query c q sortBy n) w
        = rows (Catalog.catalog_query c q "newest" n) w)
  /\ (forall c q sortBy w,
        Permutation (catalog_result c q sortBy w)
          (matching (Catalog.base_query c q "newest") w))
  /\ (forall l c q,
        StronglySorted newest_first (CatalogLocal.filter_and_sort l c q "newest")
        /\ StronglySorted price_ascending
             (CatalogLocal.filter_and_sort l c q "price_asc")
        /\ StronglySorted price_descending
             (CatalogLocal.filter_and_sort l c q "price_desc"))
  /\ (forall l c q sortBy,
        sortBy <> "price_asc" -> sortBy <> "price_desc" ->
        CatalogLocal.filter_and_sort l c q sortBy
        = CatalogLocal.filter_and_sort l c q "newest")
  /\ (forall l c q sortBy,
        Permutation (CatalogLocal.filter_and_sort l c q sortBy)
          (CatalogLocal.filter_and_sort l c q "newest")).
Proof.
  assert (Hrows : forall c q sortBy n w,
             rows (Catalog.catalog_query c q sortBy n) w
             = slice (Catalog.page_from Catalog.ITEMS_PER_PAGE n)
                 (Catalog.page_to Catalog.ITEMS_PER_PAGE n)
                 (catalog_result c q sortBy w)).
  { intros. apply catalog_query_rows. }
  split; [|split; [|split; [|split; [|split; [|split]]]]].
  - intros c q w n.
    assert (H : StronglySorted newest_first (catalog_result c q "newest" w)).
    { rewrite catalog_result_sort. cbn. apply sorted_newest. }
    split; [exact H|]. rewrite Hrows. apply StronglySorted_slice, H.
  - intros c q w n.
    assert (H : StronglySorted name_ascending (catalog_result c q "name_asc" w)).
    { rewrite catalog_result_sort. cbn. apply sorted_name. }
    split; [exact H|]. rewrite Hrows. apply StronglySorted_slice, H.
  - intros c q sortBy w n Hne. rewrite !Hrows. f_equal.
    rewrite !catalog_result_sort.
    rewrite (base_query_sort_irrelevant c q sortBy "newest").
    apply String.eqb_neq in Hne. rewrite Hne. reflexivity.
  - intros c q sortBy w. unfold catalog_result.
    rewrite (base_query_sort_irrelevant c q "newest" sortBy).
    apply ordered_perm.
  - intros l c q. unfold CatalogLocal.filter_and_sort. repeat split.
    + apply sorted_by_compare; unfold newest_first, CatalogLocal.compare; cbn;
        intros; lia.
    + apply sorted_by_compare; unfold price_ascending, CatalogLocal.compare; cbn;
        intros; lia.
    + apply sorted_by_compare; unfold price_descending, CatalogLocal.compare; cbn;
        intros; lia.
  - intros l c q sortBy H1 H2. unfold CatalogLocal.filter_and_sort.
    f_equal. unfold CatalogLocal.compare.
    apply String.eqb_neq in H1, H2. rewrite H1, H2. reflexivity.
  - intros l c q sortBy. unfold CatalogLocal.filter_and_sort, JS.sort.
    eapply Permutation_trans; [apply stable_sort_perm|].
    apply Permutation_sym, stable_sort_perm.
Qed.

(* ================================================================= *)
(** * Further properties of the pages *)

(** ** [handleAddToCart], whatever the store answers *)

(** The cart after [handleAddToCart]: as it was, with the one line of the
    user for the product raised, or with one line appended. *)
Lemma handleAddToCart_cart (u : User.t) (p : Product.t) (s : ProductDetail.Page) :
  ProductDetail.product s = Some p ->
  let s' := exec (ProductDetail.handleAddToCart (Some u)) s in
  cart_of s' = cart_of s
  \/ (exists item,
         lines u p (cart_of s) = [item]
         /\ cart_of s'
            = map (set_line_quantity item
                     (CartItem.quantity item + ProductDetail.quantity s))
                (cart_of s))
  \/ cart_of s'
     = (cart_of s ++
        [CartItem.mk (fresh_id (cart_of s)) (User.id u) (Product.id p)
           (ProductDetail.quantity s)])%list.
Proof.
  intros Hp. cbv zeta. unfold cart_of.
  rewrite <- (existing_rows u p (ProductDetail.remote s)).
  add_to_cart_cases u p s Hp;
    first [ left; reflexivity
          | right; right; reflexivity
          | right; left; eexists; split; [reflexivity|];
            apply map_ext; intros r; unfold set_line_quantity;
            rewrite andb_true_r; reflexivity ].
Qed.

Lemma NoDup_map_inj {A B : Type} (f : A -> B) (l : list A) (a b : A) :
  NoDup (map f l) -> In a l -> In b l -> f a = f b -> a = b.
Proof.
  induction l as [|x l IH]; intros Hnd Ha Hb Hf; [contradiction|].
  cbn in Hnd. inversion Hnd as [|? ? Hx Hnd']; subst.
  destruct Ha as [->|Ha]; destruct Hb as [->|Hb]; auto.
  - exfalso. apply Hx. rewrite Hf. apply in_map, Hb.
  - exfalso. apply Hx. rewrite <- Hf. apply in_map, Ha.
Qed.

(** X3. [handleAddToCart] touches the lines of its user and product only,
    whatever the store answers: every other line of the cart is kept as it
    is, every line that is new or changed is a line of the user for the
    product, no line is removed and at most one is added. *)
Theorem add_to_cart_isolation (u : User.t) (p : Product.t)
    (s : ProductDetail.Page) :
  ProductDetail.product s = Some p ->
  NoDup (map CartItem.id (cart_of s)) ->
  let s' := exec (ProductDetail.handleAddToCart (Some u)) s in
  (forall r, In r (cart_of s) -> is_line u p r = false -> In r (cart_of s'))
  /\ (forall r, In r (cart_of s') -> In r (cart_of s) \/ is_line u p r = true)
  /\ (List.length (cart_of s) <= List.length (cart_of s')
      <= List.length (cart_of s) + 1)%nat.
Proof.
  intros Hp Hids s'.
  destruct (handleAddToCart_cart u p s Hp) as [H|[(item & Hl & H)|H]];
    fold s' in H; rewrite H.
  - repeat split; auto.
    lia.
  - assert (Hitem : In item (lines u p (cart_of s))) by (rewrite Hl; left; reflexivity).
    apply filter_In in Hitem as [Hin Hline].
    split; [|split].
    + intros r Hr Hnot. apply update_others; try assumption.
      intros ->. congruence.
    + intros r Hr. apply in_map_iff in Hr as (r0 & <- & Hr0).
      unfold set_line_quantity.
      destruct (Z.eqb_spec (CartItem.id r0) (CartItem.id item)) as [Heq|Hne].
      * right.
        rewrite (NoDup_map_inj CartItem.id _ r0 item Hids Hr0 Hin Heq).
        exact Hline.
      * left. exact Hr0.
    + rewrite length_map. lia.
  - split; [|split].
    + intros r Hr _. apply in_or_app. left; exact Hr.
    + intros r Hr. apply in_app_or in Hr as [Hr|[<-|[]]]; [left; exact Hr|].
      right. unfold is_line; cbn. rewrite !String.eqb_refl. reflexivity.
    + rewrite length_app. cbn. lia.
Qed.

Lemma add_to_cart_isolation_witness :
  ProductDetail.product Sample.shirt_offline = Some Sample.shirt
  /\ NoDup (map CartItem.id (cart_of Sample.shirt_offline))
  /\ In Sample.bob_line
       (cart_of (exec (ProductDetail.handleAddToCart (Some Sample.alice))
                   Sample.shirt_offline)).
Proof.
  assert (Hids : NoDup (map CartItem.id (cart_of Sample.shirt_offline))).
  { cbn. constructor; [intros [H|[]]; discriminate|].
    constructor; [intros []|constructor]. }
  split; [reflexivity|]. split; [exact Hids|].
  exact (proj1 (add_to_cart_isolation Sample.alice Sample.shirt
                  Sample.shirt_offline eq_refl Hids)
           Sample.bob_line (or_introl eq_refl) eq_refl).
Defined.

(** X4. [handleAddToCart] never throws and always tells the user how it
    ended: when a user is signed in and a product is shown, the busy flag is
    cleared and either the dialog is opened and nothing is alerted, or one
    alert is shown and the dialog and the count are left as they were.
    Without a user or a product the page is left untouched. The product and
    the selected quantity are never changed. *)
Theorem add_to_cart_reports (user : option User.t) (s : ProductDetail.Page) :
  let s' := exec (ProductDetail.handleAddToCart user) s in
  eval (ProductDetail.handleAddToCart user) s = Returned tt
  /\ ProductDetail.product s' = ProductDetail.product s
  /\ ProductDetail.quantity s' = ProductDetail.quantity s
  /\ match user, ProductDetail.product s with
     | Some _, Some _ =>
         ProductDetail.addingToCart s' = false
         /\ ((ProductDetail.alerts s' = ProductDetail.alerts s
              /\ ProductDetail.showDialog s' = true)
             \/ (ProductDetail.alerts s'
                 = (ProductDetail.alerts s ++ [add_to_cart_alert])%list
                 /\ ProductDetail.showDialog s' = ProductDetail.showDialog s
                 /\ ProductDetail.cartItemCount s'
                    = ProductDetail.cartItemCount s))
     | _, _ => s' = s
     end.
Proof.
  cbv zeta.
  split; [apply handleAddToCart_returns|].
  split; [apply handleAddToCart_frame|].
  split; [apply handleAddToCart_frame|].
  destruct user as [u|]; [|reflexivity].
  destruct (ProductDetail.product s) as [p|] eqn:Hp.
  - unfold add_to_cart_alert.
    add_to_cart_cases u p s Hp;
      (split; [reflexivity|]);
      first [ left; split; reflexivity
            | right; repeat split; reflexivity ].
  - unfold ProductDetail.handleAddToCart, exec, bind, get. cbn.
    rewrite Hp. reflexivity.
Qed.

(** X5. One run of [handleAddToCart] sends at most three calls, in a fixed
    order: the look-up of the line, then at most one write (an insert or an
    update), then the count of the lines. A call that failed is not sent
    again, no write is sent before the look-up, and without a user or a
    product no call is sent at all. *)
Theorem add_to_cart_sends (user : option User.t) (s : ProductDetail.Page) :
  let s' := exec (ProductDetail.handleAddToCart user) s in
  exists calls,
    In calls add_to_cart_calls
    /\ Store.log (ProductDetail.remote s')
       = (Store.log (ProductDetail.remote s) ++ calls)%list
    /\ (user = None \/ ProductDetail.product s = None -> calls = []).
Proof.
  cbv zeta. destruct user as [u|].
  2:{ exists []. split; [left; reflexivity|]. split; [|reflexivity].
      cbn. rewrite app_nil_r. reflexivity. }
  destruct (ProductDetail.product s) as [p|] eqn:Hp.
  2:{ exists []. split; [left; reflexivity|]. split; [|reflexivity].
      unfold ProductDetail.handleAddToCart, exec, bind, get. cbn.
      rewrite Hp. cbn. rewrite app_nil_r. reflexivity. }
  add_to_cart_cases u p s Hp;
    eexists;
    (split; [|split; [rewrite <- ?app_assoc; cbn [app]; reflexivity
                     |intros [H|H]; discriminate]]);
    cbn; tauto.
Qed.

(** ** The count of the lines *)

Lemma or_num_count (n : nat) : JS.or_num (Some (Z.of_nat n)) 0 = Z.of_nat n.
Proof.
  unfold JS.or_num. destruct (Z.eqb_spec (Z.of_nat n) 0) as [H|H]; lia.
Qed.

Lemma count_query_matching (u : User.t) (w : Store.t) :
  matching (ProductDetail.cart_count_query u) w = user_lines u (Store.cart_items w).
Proof.
  unfold matching, ProductDetail.cart_count_query, user_lines; cbn.
  apply filter_ext. intros r. apply andb_true_r.
Qed.

Lemma handleAddToCart_count (u : User.t) (p : Product.t) (s : ProductDetail.Page) :
  ProductDetail.product s = Some p ->
  answered (ProductDetail.remote s) ->
  let s' := exec (ProductDetail.handleAddToCart (Some u)) s in
  ProductDetail.cartItemCount s'
  = Z.of_nat (List.length (user_lines u (cart_of s'))).
Proof.
  intros Hp Hans. cbv zeta. unfold cart_of.
  unfold_detail. unfold_monad.
  cbn -[rows matching JS.or_num Z.of_nat]. rewrite Hp. unfold answer_single, answered in *.
  destruct (rows (ProductDetail.existing_query u p) (ProductDetail.remote s))
    as [|item [|item' l]];
    unfold next_fault, after_call, with_cart_items; cbn -[rows matching JS.or_num Z.of_nat];
    destruct (answered_three _ Hans) as [H|[H|[H|(fs & H & Hfs)]]];
    rewrite H; cbn -[rows matching JS.or_num Z.of_nat];
    unfold answer; cbn -[rows matching JS.or_num Z.of_nat];
    rewrite count_query_matching, or_num_count; reflexivity.
Qed.

Lemma user_lines_update (u : User.t) (item : CartItem.t) (q : Z)
    (cart : list CartItem.t) :
  user_lines u (map (set_line_quantity item q) cart)
  = map (set_line_quantity item q) (user_lines u cart).
Proof.
  unfold user_lines. induction cart as [|r cart IH]; [reflexivity|].
  cbn. assert (Hc : CartItem.clerk_id (set_line_quantity item q r)
                    = CartItem.clerk_id r).
  { unfold set_line_quantity.
    destruct (CartItem.id r =? CartItem.id item); reflexivity. }
  rewrite Hc. destruct (String.eqb (CartItem.clerk_id r) (User.id u)); cbn;
    rewrite IH; reflexivity.
Qed.

(** X6. After [handleAddToCart] with a store that answers, the count the
    page shows is the number of lines of the user in the cart as the write
    left it: one more than before when the product was not in the cart, the
    same as before when its line was raised. It counts lines, not units. *)
Theorem add_to_cart_count (u : User.t) (p : Product.t) (s : ProductDetail.Page) :
  ProductDetail.product s = Some p ->
  answered (ProductDetail.remote s) ->
  cart_wf (cart_of s) ->
  let s' := exec (ProductDetail.handleAddToCart (Some u)) s in
  let before := Z.of_nat (List.length (user_lines u (cart_of s))) in
  ProductDetail.cartItemCount s'
  = Z.of_nat (List.length (user_lines u (cart_of s')))
  /\ (lines u p (cart_of s) = [] -> ProductDetail.cartItemCount s' = before + 1)
  /\ (forall item,
        In item (cart_of s) -> is_line u p item = true ->
        ProductDetail.cartItemCount s' = before).
Proof.
  intros Hp Hans Hwf s' before.
  pose proof (handleAddToCart_count u p s Hp Hans) as Hcount. fold s' in Hcount.
  destruct (handleAddToCart_answered u p s Hp Hans) as (Hcart & _).
  fold s' in Hcart.
  split; [exact Hcount|]. split.
  - intros Hnone. rewrite Hcount, Hcart, Hnone. unfold user_lines, before.
    rewrite filter_app, length_app. cbn. rewrite String.eqb_refl. cbn.
    unfold user_lines. lia.
  - intros item Hin Hline.
    rewrite Hcount, Hcart, (lines_unique u p _ item (proj2 Hwf) Hin Hline).
    rewrite user_lines_update, length_map. reflexivity.
Qed.

Lemma add_to_cart_count_witness :
  ProductDetail.product Sample.shirt_page = Some Sample.shirt
  /\ answered (ProductDetail.remote Sample.shirt_page)
  /\ cart_wf (cart_of Sample.shirt_page)
  /\ ProductDetail.cartItemCount
       (exec (ProductDetail.handleAddToCart (Some Sample.alice)) Sample.shirt_page)
     = 1.
Proof.
  assert (Hans : answered (ProductDetail.remote Sample.shirt_page))
    by constructor.
  assert (Hwf : cart_wf (cart_of Sample.shirt_page)).
  { split; cbn; (constructor; [intros []|constructor]). }
  split; [reflexivity|]. split; [exact Hans|]. split; [exact Hwf|].
  exact (proj1 (proj2 (add_to_cart_count Sample.alice Sample.shirt
                         Sample.shirt_page eq_refl Hans Hwf)) eq_refl).
Defined.

(** ** Witnesses of the failure of a write and of the selector *)

Lemma write_error_aborts_witness :
  let s :=
    ProductDetail.mkPage (Some Sample.shirt) false None 1 false false 1 []
      (Store.mk [Sample.shirt] [Sample.alice_line] []
         [Fine; Fails (mkError "duplicate key" false)] []) in
  ProductDetail.product s = Some Sample.shirt
  /\ cart_of (exec (ProductDetail.handleAddToCart (Some Sample.alice)) s)
     = cart_of s
  /\ ProductDetail.alerts (exec (ProductDetail.handleAddToCart (Some Sample.alice)) s)
     = [add_to_cart_alert].
Proof.
  cbv zeta. split; [reflexivity|].
  pose proof (write_error_aborts Sample.alice Sample.shirt
                (ProductDetail.mkPage (Some Sample.shirt) false None 1 false
                   false 1 []
                   (Store.mk [Sample.shirt] [Sample.alice_line] []
                      [Fine; Fails (mkError "duplicate key" false)] []))
                (Fails (mkError "duplicate key" false)) []
                eq_refl eq_refl) as H.
  assert (Hne : Fails (mkError "duplicate key" false) <> Fine) by discriminate.
  specialize (H Hne). cbv zeta in H.
  destruct H as (Hcart & Halert & _).
  split; [exact Hcart | exact Halert].
Defined.

Lemma selector_within_bounds_witness :
  ProductDetail.product Sample.shirt_page = Some Sample.shirt
  /\ 1 <= Product.stock_quantity Sample.shirt
  /\ selectable Sample.shirt (ProductDetail.quantity Sample.shirt_page)
  /\ selectable Sample.shirt
       (ProductDetail.quantity
          (exec (ProductDetail.interact (Some Sample.alice)
                   [ProductDetail.ClickPlus; ProductDetail.Change (Some 500);
                    ProductDetail.ClickPlus; ProductDetail.Change None;
                    ProductDetail.ClickMinus])
             Sample.shirt_page)).
Proof.
  assert (Hstock : 1 <= Product.stock_quantity Sample.shirt) by (cbn; lia).
  assert (Hq : selectable Sample.shirt (ProductDetail.quantity Sample.shirt_page)).
  { unfold selectable. cbn. lia. }
  split; [reflexivity|]. split; [exact Hstock|]. split; [exact Hq|].
  exact (selector_within_bounds (Some Sample.alice) Sample.shirt _
           Sample.shirt_page eq_refl Hstock Hq).
Defined.

(** ** The product page reads its product *)

Lemma filter_none {A : Type} (g : A -> bool) (l : list A) :
  (forall b, In b l -> g b = false) -> filter g l = [].
Proof.
  induction l as [|b l IH]; intros H; [reflexivity|].
  cbn. rewrite (H b (or_introl eq_refl)). apply IH.
  intros c Hc. apply H. right; exact Hc.
Qed.

Lemma filter_unique {A B : Type} (f : A -> B) (g : A -> bool) (l : list A) (x : A) :
  NoDup (map f l) ->
  In x l -> g x = true ->
  (forall y, In y l -> g y = true -> f y = f x) ->
  filter g l = [x].
Proof.
  induction l as [|a l IH]; intros Hnd Hin Hg Hsame; [contradiction|].
  cbn in Hnd. inversion Hnd as [|? ? Ha Hnd']; subst. cbn.
  destruct Hin as [->|Hin].
  - rewrite Hg. f_equal. apply filter_none. intros b Hb.
    destruct (g b) eqn:Hgb; [|reflexivity].
    exfalso. apply Ha. rewrite <- (Hsame b (or_intror Hb) Hgb).
    apply in_map, Hb.
  - destruct (g a) eqn:Hga.
    + exfalso. apply Ha.
      rewrite (Hsame a (or_introl eq_refl) Hga).
      apply in_map, Hin.
    + apply IH; auto. intros y Hy. apply Hsame. right; exact Hy.
Qed.

Lemma product_query_rows (productId : string) (w : Store.t) :
  rows (ProductDetail.product_query productId) w
  = filter (fun r => String.eqb (Product.id r) productId && Product.is_active r)
      (Store.products w).
Proof.
  unfold rows, matching, ProductDetail.product_query; cbn.
  apply filter_ext. intros r.
  destruct (Product.is_active r); rewrite ?andb_true_r; reflexivity.
Qed.

Lemma fetchProduct_run (productId : string) (s : ProductDetail.Page) :
  let s' := exec (ProductDetail.fetchProduct productId) s in
  ProductDetail.loading s' = false
  /\ match next_fault (ProductDetail.remote s) with
     | Fine =>
         match rows (ProductDetail.product_query productId) (ProductDetail.remote s) with
         | [d] => ProductDetail.product s' = Some d /\ ProductDetail.error s' = None
         | _ =>
             ProductDetail.product s' = ProductDetail.product s
             /\ ProductDetail.error s' <> None
         end
     | _ =>
         ProductDetail.product s' = ProductDetail.product s
         /\ ProductDetail.error s' <> None
     end.
Proof.
  cbv zeta.
  unfold ProductDetail.fetchProduct, ProductDetail.setLoading,
    ProductDetail.setError, ProductDetail.setProduct.
  unfold_monad. cbn -[rows]. unfold answer_single.
  destruct (next_fault (ProductDetail.remote s)); cbn -[rows].
  - destruct (rows (ProductDetail.product_query productId) (ProductDetail.remote s))
      as [|d [|d' l]]; cbn; repeat split; discriminate.
  - repeat split; discriminate.
  - repeat split; discriminate.
Qed.

(** X7. [fetchProduct] finds the product of an identifier: when the store
    answers, identifiers are unique and the product with this identifier is
    active, the page holds exactly that product, without error and no
    longer loading. *)
Theorem fetch_product_finds (p : Product.t) (s : ProductDetail.Page) :
  next_fault (ProductDetail.remote s) = Fine ->
  NoDup (map Product.id (Store.products (ProductDetail.remote s))) ->
  In p (Store.products (ProductDetail.remote s)) ->
  Product.is_active p = true ->
  let s' := exec (ProductDetail.fetchProduct (Product.id p)) s in
  ProductDetail.product s' = Some p
  /\ ProductDetail.error s' = None
  /\ ProductDetail.loading s' = false.
Proof.
  intros Hf Hnd Hin Hact s'.
  destruct (fetchProduct_run (Product.id p) s) as [Hload Hrun].
  fold s' in Hload, Hrun. rewrite Hf, product_query_rows in Hrun.
  rewrite (filter_unique Product.id _ _ p Hnd Hin) in Hrun.
  - destruct Hrun as [H1 H2]. repeat split; assumption.
  - rewrite String.eqb_refl, Hact. reflexivity.
  - intros y _ Hy. apply andb_true_iff in Hy as [Hy _].
    apply String.eqb_eq in Hy. exact Hy.
Qed.

Lemma fetch_product_finds_witness :
  next_fault (ProductDetail.remote (ProductDetail.initial Sample.catalog_store)) = Fine
  /\ In Sample.novel (Store.products Sample.catalog_store)
  /\ ProductDetail.product
       (exec (ProductDetail.fetchProduct "p3")
          (ProductDetail.initial Sample.catalog_store))
     = Some Sample.novel.
Proof.
  assert (Hnd : NoDup (map Product.id (Store.products Sample.catalog_store))).
  { cbn. repeat (constructor; [cbn; intuition discriminate|]). constructor. }
  assert (Hin : In Sample.novel (Store.products Sample.catalog_store)).
  { cbn. auto. }
  split; [reflexivity|]. split; [exact Hin|].
  exact (proj1 (fetch_product_finds Sample.novel
                  (ProductDetail.initial Sample.catalog_store)
                  eq_refl Hnd Hin eq_refl)).
Defined.

(** X8. [fetchProduct] ends in one of two ways, whatever the store answers,
    and is never left loading: it holds an active product of the catalog
    with the identifier asked for and no error, or it keeps the product it
    had and records an error. A product that is missing, not active, or
    whose identifier is not unique gives the second. *)
Theorem fetch_product_outcome (productId : string) (s : ProductDetail.Page) :
  let s' := exec (ProductDetail.fetchProduct productId) s in
  ProductDetail.loading s' = false
  /\ ((exists d,
         ProductDetail.product s' = Some d
         /\ ProductDetail.error s' = None
         /\ In d (Store.products (ProductDetail.remote s))
         /\ Product.id d = productId
         /\ Product.is_active d = true)
      \/ (ProductDetail.product s' = ProductDetail.product s
          /\ ProductDetail.error s' <> None))
  /\ ((forall d, In d (Store.products (ProductDetail.remote s)) ->
                 Product.id d = productId -> Product.is_active d = false) ->
      ProductDetail.product s' = ProductDetail.product s
      /\ ProductDetail.error s' <> None).
Proof.
  intros s'. destruct (fetchProduct_run productId s) as [Hload Hrun].
  fold s' in Hload, Hrun.
  split; [exact Hload|].
  destruct (next_fault (ProductDetail.remote s)); try (split; [right|intros _]; exact Hrun).
  rewrite product_query_rows in Hrun.
  destruct (filter _ (Store.products (ProductDetail.remote s)))
    as [|d [|d' l]] eqn:Hrows; try (split; [right|intros _]; exact Hrun).
  assert (Hd : In d (filter (fun r => String.eqb (Product.id r) productId
                                      && Product.is_active r)
                       (Store.products (ProductDetail.remote s))))
    by (rewrite Hrows; left; reflexivity).
  apply filter_In in Hd as [Hin Hd]. apply andb_true_iff in Hd as [Hid Hact].
  apply String.eqb_eq in Hid.
  split.
  - left. exists d. destruct Hrun as [H1 H2]. repeat split; assumption.
  - intros Hnone. rewrite (Hnone d Hin Hid) in Hact. discriminate.
Qed.

(** ** The paginated catalog fetches a page *)

Lemma catalog_query_matching (c q k : string) (n : Z) (w : Store.t) :
  matching (Catalog.catalog_query c q k n) w = matching (Catalog.base_query c q k) w.
Proof. reflexivity. Qed.

Lemma length_slice {A : Type} (from to : Z) (l : list A) :
  (List.length (slice from to l) <= Z.to_nat (to - from + 1))%nat
  /\ (List.length (slice from to l) <= List.length l)%nat.
Proof.
  unfold slice. rewrite length_firstn, length_skipn. lia.
Qed.

(** X9. [fetchProducts] of the paginated catalog, whatever the store
    answers, is never left loading. When the store answers it records no
    error, holds the rows of the window of the page (at most 12, and no more
    than the total) and the total number of products that pass the filters;
    when the call fails it records the message of the error and keeps the
    products and the total it had. *)
Theorem catalog_fetch_outcome (c q k : string) (n : Z) (s : Catalog.Page) :
  let s' := exec (Catalog.fetchProducts c q k n) s in
  Catalog.loading s' = false
  /\ match next_fault (Catalog.remote s) with
     | Fine =>
         Catalog.error s' = None
         /\ Catalog.products s' = rows (Catalog.catalog_query c q k n) (Catalog.remote s)
         /\ Catalog.totalCount s'
            = Z.of_nat (List.length (matching (Catalog.base_query c q k)
                                       (Catalog.remote s)))
         /\ (List.length (Catalog.products s') <= 12)%nat
         /\ Z.of_nat (List.length (Catalog.products s')) <= Catalog.totalCount s'
     | Fails e | Rejects e =>
         Catalog.error s' = Some (Catalog.error_text e)
         /\ Catalog.products s' = Catalog.products s
         /\ Catalog.totalCount s' = Catalog.totalCount s
     end.
Proof.
  cbv zeta.
  destruct (base_query_active_filter c q k) as (fs & _ & _ & Hhead & Hcount).
  assert (Hrun :
    exec (Catalog.fetchProducts c q k n) s
    = match next_fault (Catalog.remote s) with
      | Fine =>
          Catalog.mkPage
            (rows (Catalog.catalog_query c q k n) (Catalog.remote s)) false None
            (Z.of_nat (List.length (matching (Catalog.base_query c q k)
                                      (Catalog.remote s))))
            (after_call (Select "products") (Catalog.remote s))
      | Fails e | Rejects e =>
          Catalog.mkPage (Catalog.products s) false
            (Some (Catalog.error_text e)) (Catalog.totalCount s)
            (after_call (Select "products") (Catalog.remote s))
      end).
  { unfold Catalog.fetchProducts, Catalog.setLoading, Catalog.setError,
      Catalog.setProducts, Catalog.setTotalCount.
    unfold_monad. cbn -[rows matching JS.or_num Z.of_nat Catalog.error_text].
    assert (Ht : table_name (table (Catalog.base_query c q k)) = "products").
    { destruct (base_query_active_filter c q k) as (? & _ & -> & _). reflexivity. }
    rewrite Ht.
    destruct (next_fault (Catalog.remote s));
      cbn -[rows matching JS.or_num Z.of_nat Catalog.error_text]; try reflexivity.
    unfold answer. cbn -[rows matching JS.or_num Z.of_nat].
    rewrite Hhead, Hcount. cbn -[rows matching JS.or_num Z.of_nat].
    rewrite or_num_count. reflexivity. }
  rewrite Hrun.
  destruct (next_fault (Catalog.remote s)); cbn -[rows matching Z.of_nat];
    repeat split.
  - rewrite catalog_query_rows. cbv zeta.
    pose proof (length_slice (Catalog.page_from Catalog.ITEMS_PER_PAGE n)
                  (Catalog.page_to Catalog.ITEMS_PER_PAGE n)
                  (ordered (Catalog.base_query c q k)
                     (matching (Catalog.base_query c q k) (Catalog.remote s))))
      as [H _].
    unfold Catalog.page_to, Catalog.page_from, Catalog.ITEMS_PER_PAGE in *.
    replace (Z.to_nat ((n - 1) * 12 + 12 - 1 - (n - 1) * 12 + 1)) with 12%nat in H
      by lia.
    exact H.
  - rewrite catalog_query_rows. cbv zeta.
    pose proof (length_slice (Catalog.page_from Catalog.ITEMS_PER_PAGE n)
                  (Catalog.page_to Catalog.ITEMS_PER_PAGE n)
                  (ordered (Catalog.base_query c q k)
                     (matching (Catalog.base_query c q k) (Catalog.remote s))))
      as [_ H].
    rewrite (Permutation_length (ordered_perm _ _)) in H. lia.
Qed.

(** ** The pages the catalog offers *)

Lemma window_nonempty {A : Type} (p k : nat) (l : list A) :
  (0 < p)%nat -> (firstn p (skipn k l) <> [] <-> (k < List.length l)%nat).
Proof.
  intros Hp. split.
  - intros H. destruct (Nat.lt_ge_cases k (List.length l)) as [Hlt|Hge]; [exact Hlt|].
    exfalso. apply H. rewrite skipn_all2 by exact Hge. apply firstn_nil.
  - intros Hlt H.
    assert (Hlen : List.length (firstn p (skipn k l)) = 0%nat) by (rewrite H; reflexivity).
    rewrite length_firstn, length_skipn in Hlen. lia.
Qed.

Lemma le_ceil_div (n a b : Z) :
  0 < b -> (n <= ceil_div a b <-> (n - 1) * b < a).
Proof.
  intros Hb. unfold ceil_div.
  pose proof (Z.div_mod (- a) b ltac:(lia)) as Hdm.
  pose proof (Z.mod_pos_bound (- a) b Hb) as Hmod.
  split; intros H; nia.
Qed.

(** X10. The pages the pagination offers are the ones that hold rows: for
    a page number [n >= 1], the window of page [n] is not empty exactly when
    [n] is at most [totalPages] of the total count. *)
Theorem page_nonempty_iff (c q k : string) (w : Store.t) (n : Z) :
  1 <= n ->
  let total := Z.of_nat (List.length (matching (Catalog.base_query c q k) w)) in
  rows (Catalog.catalog_query c q k n) w <> [] <-> n <= Catalog.totalPages total.
Proof.
  intros Hn total. rewrite catalog_query_rows. cbv zeta.
  rewrite slice_page by (unfold Catalog.ITEMS_PER_PAGE; lia).
  rewrite window_nonempty by (unfold Catalog.ITEMS_PER_PAGE; lia).
  rewrite (Permutation_length (ordered_perm _ _)).
  unfold Catalog.totalPages.
  rewrite le_ceil_div by (unfold Catalog.ITEMS_PER_PAGE; lia).
  unfold total, Catalog.ITEMS_PER_PAGE. lia.
Qed.

Lemma page_nonempty_iff_witness :
  1 <= 1
  /\ (rows (Catalog.catalog_query "all" "" "newest" 1) Sample.catalog_store <> []
      <-> 1 <= Catalog.totalPages 3).
Proof.
  split; [lia|].
  exact (page_nonempty_iff "all" "" "newest" Sample.catalog_store 1 ltac:(lia)).
Defined.

Lemma remote_filter_plain_witness :
  plain "cotton SHIRT" = true
  /\ matching (Catalog.base_query "clothing" "cotton SHIRT" "newest")
       Sample.catalog_store
     = [Sample.shirt].
Proof.
  split; [reflexivity|].
  rewrite (remote_filter_plain "clothing" "cotton SHIRT" "newest"
             Sample.catalog_store eq_refl).
  reflexivity.
Defined.

(** ** The category filter of the paginated catalog *)

(** X11. Every product the paginated catalog shows for a category other
    than "all" has that category, whatever the search text (also one with
    pattern characters), the sort key and the page. *)
Theorem category_filter_sound (c q k : string) (n : Z) (w : Store.t)
    (p : Product.t) :
  c <> "all" ->
  In p (rows (Catalog.catalog_query c q k n) w) ->
  Product.category p = Some c.
Proof.
  intros Hc Hp. apply rows_sound in Hp as [_ Hall].
  apply String.eqb_neq in Hc.
  assert (Hf : In (fun r : Product.t =>
                     match Product.category r with
                     | Some s => String.eqb s c
                     | None => false
                     end)
                 (filters (Catalog.catalog_query c q k n))).
  { unfold Catalog.catalog_query, Catalog.base_query. rewrite Hc. cbn.
    destruct (negb (String.eqb (JS.trim q) ""));
      destruct (String.eqb k "name_asc"); cbn; auto. }
  specialize (Hall _ Hf). cbn in Hall.
  destruct (Product.category p) as [c'|]; [|discriminate].
  apply String.eqb_eq in Hall. rewrite Hall. reflexivity.
Qed.

Lemma category_filter_sound_witness :
  "books" <> "all"
  /\ In Sample.novel (rows (Catalog.catalog_query "books" "%" "newest" 1)
                        Sample.catalog_store)
  /\ Product.category Sample.novel = Some "books".
Proof.
  assert (Hc : "books" <> "all") by discriminate.
  assert (Hin : In Sample.novel
                  (rows (Catalog.catalog_query "books" "%" "newest" 1)
                     Sample.catalog_store)).
  { left. reflexivity. }
  split; [exact Hc|]. split; [exact Hin|].
  exact (category_filter_sound "books" "%" "newest" 1 Sample.catalog_store
           Sample.novel Hc Hin).
Defined.

(** ** The order history, whatever the store answers *)

(** X14. [fetchOrders] is never left loading. Without a signed-in user it
    sends no call and keeps the orders and the error it had; when the call
    fails it records the message of the error and keeps the orders it had;
    when the store answers it records no error. *)
Theorem fetch_orders_outcome (user : option User.t) (selectedStatus : string)
    (s : MyPage.Page) :
  let s' := exec (MyPage.fetchOrders user selectedStatus) s in
  MyPage.loading s' = false
  /\ match user with
     | None =>
         MyPage.orders s' = MyPage.orders s
         /\ MyPage.error s' = MyPage.error s
         /\ MyPage.remote s' = MyPage.remote s
     | Some u =>
         match next_fault (MyPage.remote s) with
         | Fine =>
             MyPage.error s' = None
             /\ MyPage.orders s'
                = rows (MyPage.orders_query u selectedStatus) (MyPage.remote s)
         | Fails e | Rejects e =>
             MyPage.error s' = Some (MyPage.error_text e)
             /\ MyPage.orders s' = MyPage.orders s
         end
     end.
Proof.
  cbv zeta. destruct user as [u|]; [|repeat split].
  unfold MyPage.fetchOrders, MyPage.setLoading, MyPage.setError, MyPage.setOrders.
  unfold_monad. cbn -[rows MyPage.error_text].
  assert (Hh : head (MyPage.orders_query u selectedStatus) = false).
  { unfold MyPage.orders_query.
    destruct (negb (String.eqb selectedStatus "all")); reflexivity. }
  destruct (next_fault (MyPage.remote s)); cbn -[rows MyPage.error_text];
    repeat split.
  unfold answer. rewrite Hh. reflexivity.
Qed.

(** ** Reading never writes *)

Lemma after_call_same (r : request) (w : Store.t) : same_tables w (after_call r w).
Proof. repeat split. Qed.

Lemma same_tables_refl (w : Store.t) : same_tables w w.
Proof. repeat split. Qed.

(** X15. The handlers that read (the two [fetchProducts] of the catalog,
    [fetchProduct] and [fetchCartCount] of the product page, [fetchOrders],
    [getPopularProducts] and the [fetchCartCount] of the badge) leave the
    rows of the three tables as they are and send at most one call, a read
    of their table, whatever the store answers; they never throw. *)
Theorem reads_never_write :
  (forall c q k n s,
      let s' := exec (Catalog.fetchProducts c q k n) s in
      same_tables (Catalog.remote s) (Catalog.remote s')
      /\ at_most_one_read "products" (Catalog.remote s) (Catalog.remote s')
      /\ eval (Catalog.fetchProducts c q k n) s = Returned tt)
  /\ (forall s,
        let s' := exec CatalogLocal.fetchProducts s in
        same_tables (CatalogLocal.remote s) (CatalogLocal.remote s')
        /\ at_most_one_read "products" (CatalogLocal.remote s) (CatalogLocal.remote s')
        /\ eval CatalogLocal.fetchProducts s = Returned tt)
  /\ (forall productId s,
        let s' := exec (ProductDetail.fetchProduct productId) s in
        same_tables (ProductDetail.remote s) (ProductDetail.remote s')
        /\ at_most_one_read "products" (ProductDetail.remote s) (ProductDetail.remote s')
        /\ eval (ProductDetail.fetchProduct productId) s = Returned tt)
  /\ (forall user s,
        let s' := exec (ProductDetail.fetchCartCount user) s in
        same_tables (ProductDetail.remote s) (ProductDetail.remote s')
        /\ at_most_one_read "cart_items" (ProductDetail.remote s) (ProductDetail.remote s')
        /\ eval (ProductDetail.fetchCartCount user) s = Returned tt)
  /\ (forall user status s,
        let s' := exec (MyPage.fetchOrders user status) s in
        same_tables (MyPage.remote s) (MyPage.remote s')
        /\ at_most_one_read "orders" (MyPage.remote s) (MyPage.remote s')
        /\ eval (MyPage.fetchOrders user status) s = Returned tt)
  /\ (forall s,
        let s' := exec Home.getPopularProducts s in
        same_tables (Home.remote s) (Home.remote s')
        /\ at_most_one_read "products" (Home.remote s) (Home.remote s')
        /\ (configured s = false -> s' = s))
  /\ (forall user s,
        let s' := exec (CartBadge.fetchCartCount user) s in
        same_tables (CartBadge.remote s) (CartBadge.remote s')
        /\ at_most_one_read "cart_items" (CartBadge.remote s) (CartBadge.remote s')
        /\ eval (CartBadge.fetchCartCount user) s = Returned tt).
Proof.
  unfold at_most_one_read.
  split; [|split; [|split; [|split; [|split; [|split]]]]].
  - intros c q k n s. cbv zeta.
    unfold Catalog.fetchProducts, Catalog.setLoading, Catalog.setError,
      Catalog.setProducts, Catalog.setTotalCount.
    unfold_monad. cbn -[rows matching].
    assert (Ht : table_name (table (Catalog.base_query c q k)) = "products").
    { destruct (base_query_active_filter c q k) as (? & _ & -> & _). reflexivity. }
    rewrite Ht.
    destruct (next_fault (Catalog.remote s)); cbn -[rows matching];
      repeat split; right; reflexivity.
  - intros s. cbv zeta.
    unfold CatalogLocal.fetchProducts, CatalogLocal.setLoading,
      CatalogLocal.setError, CatalogLocal.setProducts,
      CatalogLocal.setFilteredProducts.
    unfold_monad. cbn -[rows matching].
    destruct (next_fault (CatalogLocal.remote s)); cbn -[rows matching];
      repeat split; right; reflexivity.
  - intros productId s. cbv zeta.
    unfold ProductDetail.fetchProduct, ProductDetail.setLoading,
      ProductDetail.setError, ProductDetail.setProduct.
    unfold_monad. cbn -[rows]. unfold answer_single.
    destruct (next_fault (ProductDetail.remote s)); cbn -[rows];
      try (repeat split; right; reflexivity).
    destruct (rows (ProductDetail.product_query productId) (ProductDetail.remote s))
      as [|d [|d' l]]; cbn; repeat split; right; reflexivity.
  - intros user s. cbv zeta. destruct user as [u|].
    + unfold ProductDetail.fetchCartCount, ProductDetail.setCartItemCount.
      unfold_monad. cbn -[rows matching].
      destruct (next_fault (ProductDetail.remote s)); cbn -[rows matching];
        repeat split; right; reflexivity.
    + repeat split. left; reflexivity.
  - intros user status s. cbv zeta. destruct user as [u|].
    + unfold MyPage.fetchOrders, MyPage.setLoading, MyPage.setError,
        MyPage.setOrders.
      unfold_monad. cbn -[rows matching].
      assert (Ht : table_name (table (MyPage.orders_query u status)) = "orders").
      { unfold MyPage.orders_query.
        destruct (negb (String.eqb status "all")); reflexivity. }
      rewrite Ht.
      destruct (next_fault (MyPage.remote s)); cbn -[rows matching];
        repeat split; right; reflexivity.
    + repeat split. left; reflexivity.
  - intros s. cbv zeta.
    unfold Home.getPopularProducts, Home.createClient, configured.
    unfold_monad. cbn -[rows matching].
    destruct (JS.truthy_str (Home.NEXT_PUBLIC_SUPABASE_URL s)); cbn -[rows matching];
      [|repeat split; try (left; reflexivity); destruct s; reflexivity].
    destruct (JS.truthy_str (Home.NEXT_PUBLIC_SUPABASE_ANON_KEY s));
      cbn -[rows matching];
      [|repeat split; try (left; reflexivity); destruct s; reflexivity].
    destruct (Home.createClient_throws s); cbn -[rows matching];
      [repeat split; try (left; reflexivity); discriminate|].
    destruct (next_fault (Home.remote s)); cbn -[rows matching];
      repeat split; try (right; reflexivity); discriminate.
  - intros user s. cbv zeta. destruct user as [u|].
    + unfold CartBadge.fetchCartCount, CartBadge.setItemCount.
      unfold_monad. cbn -[rows matching].
      destruct (next_fault (CartBadge.remote s)); cbn -[rows matching];
        repeat split; right; reflexivity.
    + repeat split. left; reflexivity.
Qed.

(** ** The badge of the cart *)

(** X16. The badge counts the lines of the cart of the signed-in user (not
    the units): when the store answers, it shows nothing exactly when the
    user has no line and [99+] exactly when the user has more than 99; when
    the call fails it keeps the count it had; signed out it shows nothing
    and sends no call. *)
Theorem cart_badge_count (user : option User.t) (s : CartBadge.Page) :
  let s' := exec (CartBadge.fetchCartCount user) s in
  match user with
  | None =>
      CartBadge.render s' = CartBadge.Hidden
      /\ CartBadge.remote s' = CartBadge.remote s
  | Some u =>
      let own := user_lines u (Store.cart_items (CartBadge.remote s)) in
      match next_fault (CartBadge.remote s) with
      | Fine =>
          CartBadge.itemCount s' = Z.of_nat (List.length own)
          /\ (CartBadge.render s' = CartBadge.Hidden <-> own = [])
          /\ (CartBadge.render s' = CartBadge.NinetyNinePlus
              <-> (99 < List.length own)%nat)
      | _ => CartBadge.itemCount s' = CartBadge.itemCount s
      end
  end.
Proof.
  cbv zeta. destruct user as [u|]; [|split; reflexivity].
  unfold CartBadge.fetchCartCount, CartBadge.setItemCount.
  unfold_monad. cbn -[rows matching JS.or_num Z.of_nat].
  destruct (next_fault (CartBadge.remote s));
    cbn -[rows matching JS.or_num Z.of_nat]; try reflexivity.
  unfold answer. cbn -[rows matching JS.or_num Z.of_nat].
  rewrite count_query_matching, or_num_count.
  set (own := user_lines u (Store.cart_items (CartBadge.remote s))).
  unfold CartBadge.render. cbn -[Z.of_nat].
  split; [reflexivity|]. split.
  - destruct (Z.eqb_spec (Z.of_nat (List.length own)) 0) as [H0|H0].
    + split; [intros _|reflexivity]. destruct own; [reflexivity|cbn in H0; lia].
    + split.
      * destruct (Z.of_nat (List.length own) >? 99); discriminate.
      * intros ->. cbn in H0. lia.
  - destruct (Z.eqb_spec (Z.of_nat (List.length own)) 0) as [H0|H0].
    + split; [discriminate|lia].
    + destruct (Z.gtb_spec (Z.of_nat (List.length own)) 99) as [H|H].
      * split; [intros _; lia | reflexivity].
      * split; [discriminate | lia].
Qed.

(** ** The category of the catalog page and its address *)

Lemma valid_truthy (c : string) :
  CatalogNav.is_valid c = true -> JS.truthy_str (Some c) = true.
Proof. destruct c; [discriminate|reflexivity]. Qed.

Lemma initialCategory_valid (ps : CatalogNav.SearchParams) :
  CatalogNav.is_valid (CatalogNav.initialCategory ps) = true.
Proof.
  unfold CatalogNav.initialCategory.
  destruct (CatalogNav.params_get "category" ps) as [c|]; [|reflexivity].
  destruct (JS.truthy_str (Some c) && CatalogNav.is_valid c) eqn:H; [|reflexivity].
  apply andb_true_iff in H. exact (proj2 H).
Qed.

Lemma url_effect_valid (nav : CatalogNav.Nav) :
  CatalogNav.is_valid (CatalogNav.selectedCategory nav) = true ->
  CatalogNav.is_valid (CatalogNav.selectedCategory (CatalogNav.url_effect nav)) = true.
Proof.
  intros Hv. unfold CatalogNav.url_effect.
  destruct (CatalogNav.params_get "category" (CatalogNav.searchParams nav)) as [c|];
    [|reflexivity].
  destruct (JS.truthy_str (Some c) && CatalogNav.is_valid c) eqn:H.
  - apply andb_true_iff in H. exact (proj2 H).
  - destruct (negb (JS.truthy_str (Some c))); [reflexivity | exact Hv].
Qed.

Lemma settle_category (before after : CatalogNav.Nav) :
  CatalogNav.selectedCategory (CatalogNav.settle before after)
  = CatalogNav.selectedCategory after
  /\ CatalogNav.searchParams (CatalogNav.settle before after)
     = CatalogNav.searchParams after.
Proof.
  unfold CatalogNav.settle.
  destruct (CatalogNav.filters_changed before after); split; reflexivity.
Qed.

Lemma step_valid (e : CatalogNav.event) (nav : CatalogNav.Nav) :
  from_controls e ->
  CatalogNav.is_valid (CatalogNav.selectedCategory nav) = true ->
  CatalogNav.is_valid (CatalogNav.selectedCategory (CatalogNav.step e nav)) = true.
Proof.
  intros He Hv. destruct e as [c|q|k|n|ps]; cbn [CatalogNav.step];
    try (rewrite (proj1 (settle_category _ _))); try exact Hv.
  - unfold CatalogNav.handleCategoryChange.
    destruct (String.eqb (CatalogNav.selectedCategory nav) c); [exact Hv|].
    apply url_effect_valid. exact He.
  - apply url_effect_valid. exact Hv.
Qed.

(** X17. The category of the catalog page is always one of the eight valid
    ones: whatever address the page is mounted on and whatever addresses it
    is sent to afterwards (also ones that name a category that does not
    exist), and whatever the visitor does with the controls, the category
    given to the query is valid. *)
Theorem nav_category_valid (ps : CatalogNav.SearchParams)
    (es : list CatalogNav.event) :
  Forall from_controls es ->
  CatalogNav.is_valid
    (CatalogNav.selectedCategory (CatalogNav.run es (CatalogNav.mount ps))) = true.
Proof.
  intros Hes. unfold CatalogNav.run.
  assert (H : forall nav,
             CatalogNav.is_valid (CatalogNav.selectedCategory nav) = true ->
             CatalogNav.is_valid
               (CatalogNav.selectedCategory
                  (fold_left (fun n e => CatalogNav.step e n) es nav)) = true).
  { induction Hes as [|e es He Hes IH]; intros nav Hv; [exact Hv|].
    cbn. apply IH. apply step_valid; assumption. }
  apply H. apply initialCategory_valid.
Qed.

Lemma nav_category_valid_witness :
  Forall from_controls
    [CatalogNav.Navigate [("category", "weapons")];
     CatalogNav.ClickCategory "books";
     CatalogNav.Navigate [("category", "<script>")]]
  /\ CatalogNav.is_valid
       (CatalogNav.selectedCategory
          (CatalogNav.run
             [CatalogNav.Navigate [("category", "weapons")];
              CatalogNav.ClickCategory "books";
              CatalogNav.Navigate [("category", "<script>")]]
             (CatalogNav.mount [("category", "nothing")]))) = true.
Proof.
  assert (H : Forall from_controls
                [CatalogNav.Navigate [("category", "weapons")];
                 CatalogNav.ClickCategory "books";
                 CatalogNav.Navigate [("category", "<script>")]]).
  { constructor; [exact I|]. constructor; [reflexivity|].
    constructor; [exact I|constructor]. }
  split; [exact H|].
  exact (nav_category_valid [("category", "nothing")] _ H).
Defined.

Lemma url_effect_params (nav : CatalogNav.Nav) :
  CatalogNav.searchParams (CatalogNav.url_effect nav) = CatalogNav.searchParams nav.
Proof.
  unfold CatalogNav.url_effect.
  destruct (CatalogNav.params_get "category" (CatalogNav.searchParams nav)) as [c|];
    [|reflexivity].
  destruct (JS.truthy_str (Some c) && CatalogNav.is_valid c); [reflexivity|].
  destruct (negb (JS.truthy_str (Some c))); reflexivity.
Qed.

Lemma url_effect_category (nav : CatalogNav.Nav) :
  CatalogNav.selectedCategory (CatalogNav.url_effect nav)
  = match CatalogNav.params_get "category" (CatalogNav.searchParams nav) with
    | Some c =>
        if JS.truthy_str (Some c) && CatalogNav.is_valid c then c
        else if negb (JS.truthy_str (Some c)) then "all"
             else CatalogNav.selectedCategory nav
    | None => "all"
    end.
Proof.
  unfold CatalogNav.url_effect.
  destruct (CatalogNav.params_get "category" (CatalogNav.searchParams nav)) as [c|];
    [|reflexivity].
  destruct (JS.truthy_str (Some c) && CatalogNav.is_valid c); [reflexivity|].
  destruct (negb (JS.truthy_str (Some c))); reflexivity.
Qed.

Lemma params_get_set (key value : string) :
  CatalogNav.params_get key (CatalogNav.params_set key value []) = Some value.
Proof. unfold CatalogNav.params_get. cbn. rewrite String.eqb_refl. reflexivity. Qed.

(** A click on the button of a valid category selects it and writes it to
    the address. *)
Lemma handleCategoryChange_sync (c : string) (nav : CatalogNav.Nav) :
  CatalogNav.is_valid c = true ->
  CatalogNav.selectedCategory nav
  = CatalogNav.initialCategory (CatalogNav.searchParams nav) ->
  let nav' := CatalogNav.handleCategoryChange c nav in
  CatalogNav.selectedCategory nav' = c
  /\ CatalogNav.initialCategory (CatalogNav.searchParams nav') = c.
Proof.
  intros Hc Hs. cbv zeta. unfold CatalogNav.handleCategoryChange.
  destruct (String.eqb_spec (CatalogNav.selectedCategory nav) c) as [Heq|Hne].
  - split; [exact Heq | rewrite <- Hs; exact Heq].
  - rewrite url_effect_category, url_effect_params.
    cbn [CatalogNav.replace CatalogNav.searchParams].
    unfold CatalogNav.initialCategory.
    destruct (String.eqb_spec c "all") as [->|Hall]; [split; reflexivity|].
    cbn [negb]. rewrite params_get_set, (valid_truthy c Hc), Hc.
    split; reflexivity.
Qed.

Lemma step_in_sync (e : CatalogNav.event) (nav : CatalogNav.Nav) :
  reloadable e ->
  CatalogNav.selectedCategory nav
  = CatalogNav.initialCategory (CatalogNav.searchParams nav) ->
  CatalogNav.selectedCategory (CatalogNav.step e nav)
  = CatalogNav.initialCategory (CatalogNav.searchParams (CatalogNav.step e nav)).
Proof.
  intros He Hs. destruct e as [c|q|k|n|ps]; cbn [CatalogNav.step];
    try (rewrite (proj1 (settle_category _ _)), (proj2 (settle_category _ _)));
    try exact Hs.
  - unfold reloadable in He.
    destruct (handleCategoryChange_sync c nav He Hs) as [H1 H2].
    rewrite H1, H2. reflexivity.
  - unfold reloadable in He.
    rewrite url_effect_category, url_effect_params.
    cbn [CatalogNav.replace CatalogNav.searchParams].
    unfold CatalogNav.initialCategory.
    destruct (CatalogNav.params_get "category" ps) as [c|]; [|reflexivity].
    destruct He as [->|He]; [reflexivity|].
    rewrite (valid_truthy c He), He. reflexivity.
Qed.

(** X18. The address keeps up with the category buttons: as long as the
    addresses the page is sent to name a valid category or none, the
    category the page shows is the one a fresh mount on its current address
    would start with; in particular, after a click on the button of another
    valid category the page shows that category and a reload keeps it. *)
Theorem nav_reload_keeps_category (ps : CatalogNav.SearchParams)
    (es : list CatalogNav.event) (c : string) :
  Forall reloadable es ->
  CatalogNav.is_valid c = true ->
  let nav := CatalogNav.run es (CatalogNav.mount ps) in
  let nav' := CatalogNav.step (CatalogNav.ClickCategory c) nav in
  CatalogNav.selectedCategory nav
  = CatalogNav.initialCategory (CatalogNav.searchParams nav)
  /\ CatalogNav.selectedCategory nav' = c
  /\ CatalogNav.selectedCategory (CatalogNav.mount (CatalogNav.searchParams nav')) = c.
Proof.
  intros Hes Hc nav nav'.
  assert (Hsync : CatalogNav.selectedCategory nav
                  = CatalogNav.initialCategory (CatalogNav.searchParams nav)).
  { unfold nav, CatalogNav.run.
    assert (H : forall n0,
               CatalogNav.selectedCategory n0
               = CatalogNav.initialCategory (CatalogNav.searchParams n0) ->
               CatalogNav.selectedCategory
                 (fold_left (fun n e => CatalogNav.step e n) es n0)
               = CatalogNav.initialCategory
                   (CatalogNav.searchParams
                      (fold_left (fun n e => CatalogNav.step e n) es n0))).
    { induction Hes as [|e es He Hes IH]; intros n0 Hn0; [exact Hn0|].
      cbn. apply IH. apply step_in_sync; assumption. }
    apply H. reflexivity. }
  assert (Hsel : CatalogNav.selectedCategory nav' = c).
  { unfold nav'. cbn [CatalogNav.step].
    rewrite (proj1 (settle_category _ _)).
    apply (handleCategoryChange_sync c nav Hc Hsync). }
  split; [exact Hsync|]. split; [exact Hsel|].
  cbn [CatalogNav.mount CatalogNav.selectedCategory].
  rewrite <- Hsel. symmetry.
  apply (step_in_sync (CatalogNav.ClickCategory c) nav Hc Hsync).
Qed.

Lemma nav_reload_keeps_category_witness :
  Forall reloadable
    [CatalogNav.TypeSearch "shirt"; CatalogNav.GoToPage 3;
     CatalogNav.Navigate [("category", "food")]]
  /\ CatalogNav.is_valid "books" = true
  /\ CatalogNav.initialCategory
       (CatalogNav.searchParams
          (CatalogNav.step (CatalogNav.ClickCategory "books")
             (CatalogNav.run
                [CatalogNav.TypeSearch "shirt"; CatalogNav.GoToPage 3;
                 CatalogNav.Navigate [("category", "food")]]
                (CatalogNav.mount []))))
     = "books".
Proof.
  assert (H : Forall reloadable
                [CatalogNav.TypeSearch "shirt"; CatalogNav.GoToPage 3;
                 CatalogNav.Navigate [("category", "food")]]).
  { constructor; [exact I|]. constructor; [exact I|].
    constructor; [|constructor].
    change ("food" = "" \/ CatalogNav.is_valid "food" = true).
    right. reflexivity. }
  split; [exact H|]. split; [reflexivity|].
  exact (proj2 (proj2 (nav_reload_keeps_category [] _ "books" H eq_refl))).
Defined.

(** ** A search text of white space *)







